(** * Remediation handler for instances launched from a public AMI

    Shallow embedding of [aws/asg/confused_deputy/lambda_function.py].

    The handler walks the instance records of a change notification and, for
    every record whose image is reported public, suspends the owning scaling
    group (when one is named in the tags), terminates the instance and files
    a compliance finding.

    The three boto3 clients are the only source of effects.  They are
    modelled as a record of oracles ([Services]) that answer a call from the
    history of everything the handler did before it, so a service may fail on
    one call and succeed on the next.  Handler code lives in a small monad
    [M] that threads this history (the [Trace]) and propagates Python
    exceptions. *)

From Stdlib Require Import String Ascii List Bool Arith ZArith Lia.
Import ListNotations.

Local Open Scope string_scope.
Local Open Scope list_scope.

(** ** Data model *)

(** One [{key, value}] entry of [item['tagSet']['items']]. *)
Record Tag : Type := mkTag {
  key : string;
  value : string
}.

(** One element of [event['detail']['responseElements']['instancesSet']['items']]. *)
Record Item : Type := mkItem {
  instanceId : string;
  imageId : string;
  tagSet : list Tag
}.

(** The triggering event, reduced to the four paths the handler reads:
    [detail.eventTime], [account], [region] and the instance items. *)
Record ChangeEvent : Type := mkEvent {
  eventTime : string;
  account : string;
  region : string;
  items : list Item
}.

(** The [EventDetails] dataclass.  [auto_scaling_group_name] is annotated
    [str] in the source but receives [None] when no tag matched. *)
Record EventDetails : Type := mkDetails {
  timestamp : string;
  instance_id : string;
  image_id : string;
  account_id : string;
  details_region : string;
  auto_scaling_group_name : option string
}.

(** The finding dictionary built by [send_invalid_ami_event_to_security_hub],
    one record per nested dictionary. *)
Record SeverityDict : Type := mkSeverity { Label : string }.
Record ComplianceDict : Type := mkCompliance { Status : string }.
Record AwsEc2InstanceDict : Type := mkEc2 { ImageId : string }.
Record OtherDict : Type := mkOther { AutoScalingGroupName : string }.

Record DetailsDict : Type := mkResDetails {
  AwsEc2Instance : AwsEc2InstanceDict;
  Other : OtherDict
}.

Record Resource : Type := mkResource {
  ResourceType : string;
  ResourceId : string;
  Partition : string;
  ResourceRegion : string;
  Details : DetailsDict
}.

Record Finding : Type := mkFinding {
  SchemaVersion : string;
  Id : string;
  ProductArn : string;
  GeneratorId : string;
  AwsAccountId : string;
  Types : list string;
  CreatedAt : string;
  UpdatedAt : string;
  Severity : SeverityDict;
  Title : string;
  Description : string;
  Resources : list Resource;
  Compliance : ComplianceDict;
  RecordState : string
}.

(** An element of the [Images] list answered by [describe_images]; only the
    [Public] flag is read. *)
Record Image : Type := mkImage { Public : bool }.

(** The dictionary returned by [lambda_handler]. *)
Record HandlerResponse : Type := mkResponse {
  statusCode : Z;
  body : string
}.

(** Python exceptions that can travel through the handler: what a client
    raises, and the [IndexError] of [ami_info['Images'][0]] on an empty
    list.  Both are subclasses of [Exception], so [except Exception]
    catches them. *)
Inductive Exception : Type :=
| ClientError (msg : string)
| IndexError (msg : string).

(** [str(e)]. *)
Definition str (e : Exception) : string :=
  match e with
  | ClientError msg => msg
  | IndexError msg => msg
  end.

(** ** Effects *)

(** A request sent to one of the three services, with its keyword
    argument. *)
Inductive Call : Type :=
| DescribeImages (ImageIds : list string)
| SuspendProcesses (AutoScalingGroupName : string)
| TerminateInstances (InstanceIds : list string)
| BatchImportFindings (Findings : list Finding).

(** What an invocation does that is visible from outside, in order. *)
Inductive Event : Type :=
| Called (c : Call)
| Printed (line : string).

Definition Trace : Type := list Event.

(** The clients created by [boto3.client].  Every method receives the trace
    of the invocation so far and either raises or answers.  The answer of
    [batch_import_findings] is kept as the text [print] shows for it. *)
Record Services : Type := mkServices {
  describe_images : Trace -> list string -> Exception + list Image;
  suspend_processes : Trace -> string -> Exception + unit;
  terminate_instances : Trace -> list string -> Exception + unit;
  batch_import_findings : Trace -> list Finding -> Exception + string
}.

(** Computations: the trace so far goes in, the extended trace comes out
    together with a raised exception or a value. *)
Definition M (A : Type) : Type := Trace -> Trace * (Exception + A).

Definition ret {A : Type} (a : A) : M A := fun h => (h, inr a).

Definition raise {A : Type} (e : Exception) : M A := fun h => (h, inl e).

Definition bind {A B : Type} (m : M A) (k : A -> M B) : M B :=
  fun h =>
    match m h with
    | (h', inr a) => k a h'
    | (h', inl e) => (h', inl e)
    end.

(** [try: m  except Exception as e: handler e].  What [m] did before it
    raised stays in the trace. *)
Definition try_except {A : Type} (m : M A) (handler : Exception -> M A) : M A :=
  fun h =>
    match m h with
    | (h', inr a) => (h', inr a)
    | (h', inl e) => handler e h'
    end.

(** A service call: logged in the trace, answered from the trace before
    it. *)
Definition call {A : Type} (c : Call) (answer : Trace -> Exception + A) : M A :=
  fun h => (h ++ [Called c], answer h).

(** [print(line)]. *)
Definition print (line : string) : M unit :=
  fun h => (h ++ [Printed line], inr tt).

Declare Scope monad_scope.
Delimit Scope monad_scope with monad.
Notation "x <- m ;; k" := (bind m (fun x => k))
  (at level 61, m at next level, right associativity) : monad_scope.
Notation "m ;; k" := (bind m (fun _ => k))
  (at level 61, right associativity) : monad_scope.
Local Open Scope monad_scope.

(** [for x in l: body x]; an exception leaves the loop. *)
Fixpoint for_each {A : Type} (body : A -> M unit) (l : list A) : M unit :=
  match l with
  | [] => ret tt
  | x :: xs => body x ;; for_each body xs
  end.

(** [l[0]]. *)
Definition index0 {A : Type} (l : list A) : M A :=
  match l with
  | [] => raise (IndexError "list index out of range")
  | x :: _ => ret x
  end.

(** ** [json.dumps] on a string

    [json.dumps(s)] with the default [ensure_ascii=True]: the string between
    double quotes, with the two-character escapes for the quote, the
    backslash and the five named control characters, and [\u00xx] for every
    other character outside the printable range space..tilde.  A Rocq
    character is read as the code point of its number. *)

Definition dquote : ascii := "034"%char.

Definition hex_digit (n : nat) : ascii :=
  nth n (list_ascii_of_string "0123456789abcdef") "0"%char.

Definition json_escape_char (c : ascii) : string :=
  let n := nat_of_ascii c in
  if Nat.eqb n 34 then String "\"%char (String dquote EmptyString)
  else if Nat.eqb n 92 then "\\"
  else if Nat.eqb n 10 then "\n"
  else if Nat.eqb n 13 then "\r"
  else if Nat.eqb n 9 then "\t"
  else if Nat.eqb n 12 then "\f"
  else if Nat.eqb n 8 then "\b"
  else if andb (Nat.leb 32 n) (Nat.leb n 126) then String c EmptyString
  else "\u00" ++ String (hex_digit (n / 16)) (String (hex_digit (n mod 16)) EmptyString).

Fixpoint json_escape (s : string) : string :=
  match s with
  | EmptyString => EmptyString
  | String c rest => json_escape_char c ++ json_escape rest
  end.

Definition json_dumps (s : string) : string :=
  String dquote (json_escape s ++ String dquote EmptyString).

(** ** The handler *)

(** Python truth value of a string. *)
Definition truthy (s : string) : bool :=
  match s with
  | EmptyString => false
  | String _ _ => true
  end.

(** Lines 72-76: the value of the first tag whose key is
    [aws:autoscaling:groupName], [None] when no tag has that key. *)
Fixpoint find_asg_name (tags : list Tag) : option string :=
  match tags with
  | [] => None
  | tag :: rest =>
      if String.eqb (key tag) "aws:autoscaling:groupName"
      then Some (value tag)
      else find_asg_name rest
  end.

(** Line 43: [name if name else 'Not part of an ASG'], where both [None]
    and the empty string are false. *)
Definition asg_name_or_default (name : option string) : string :=
  match name with
  | Some s => if truthy s then s else "Not part of an ASG"
  | None => "Not part of an ASG"
  end.

(** Lines 20-50: the finding dictionary. *)
Definition make_finding (event_details : EventDetails) : Finding :=
  {| SchemaVersion := "2018-10-08";
     Id := instance_id event_details ++ "/compliance-check";
     ProductArn :=
       "arn:aws:securityhub:" ++ details_region event_details ++ ":"
       ++ account_id event_details ++ ":product/"
       ++ account_id event_details ++ "/default";
     GeneratorId := "custom-compliance-check";
     AwsAccountId := account_id event_details;
     Types := ["Software and Configuration Checks/Industry and Regulatory Standards"];
     CreatedAt := timestamp event_details;
     UpdatedAt := timestamp event_details;
     Severity := {| Label := "HIGH" |};
     Title := "EC2 Instance Non-Compliance with Company Standards";
     Description :=
       "EC2 instance " ++ instance_id event_details ++ " with AMI "
       ++ image_id event_details ++ " is non-compliant and was terminated.";
     Resources :=
       [ {| ResourceType := "AwsEc2Instance";
            ResourceId := instance_id event_details;
            Partition := "aws";
            ResourceRegion := details_region event_details;
            Details :=
              {| AwsEc2Instance := {| ImageId := image_id event_details |};
                 Other :=
                   {| AutoScalingGroupName :=
                        asg_name_or_default
                          (auto_scaling_group_name event_details) |} |} |} ];
     Compliance := {| Status := "FAILED" |};
     RecordState := "ACTIVE" |}.

Section Handler.

(** The clients of one invocation.  Creating them ([boto3.client]) is
    configuration and is taken as done. *)
Variable svc : Services.

(** Lines 18-54. *)
Definition send_invalid_ami_event_to_security_hub
    (event_details : EventDetails) : M string :=
  let finding := make_finding event_details in
  response <- call (BatchImportFindings [finding])
                   (fun h => batch_import_findings svc h [finding]) ;;
  print response ;;
  ret response.

(** Lines 83-90: the guarded suspension.  [None] and the empty string
    both fail the test [if asg_name:]. *)
Definition suspend_group (asg_name : option string) : M unit :=
  match asg_name with
  | Some name =>
      if truthy name then
        try_except
          (call (SuspendProcesses name)
                (fun h => suspend_processes svc h name) ;;
           print ("Suspended ASG: " ++ name))
          (fun e => print ("Error suspending ASG " ++ name ++ ": " ++ str e))
      else ret tt
  | None => ret tt
  end.

(** Lines 92-96: the guarded termination. *)
Definition terminate_instance (instance_id : string) : M unit :=
  try_except
    (call (TerminateInstances [instance_id])
          (fun h => terminate_instances svc h [instance_id]) ;;
     print ("Terminating instance: " ++ instance_id))
    (fun e =>
       print ("Error terminating instance " ++ instance_id ++ ": " ++ str e)).

(** Lines 82-105: what is done once the image is known to be public. *)
Definition remediate (event_time account region : string)
    (item : Item) (asg_name : option string) : M unit :=
  suspend_group asg_name ;;
  terminate_instance (instanceId item) ;;
  send_invalid_ami_event_to_security_hub
    {| timestamp := event_time;
       instance_id := instanceId item;
       image_id := imageId item;
       account_id := account;
       details_region := region;
       auto_scaling_group_name := asg_name |} ;;
  ret tt.

(** Lines 68-105: the body of the loop over the items. *)
Definition process_item (event_time account region : string)
    (item : Item) : M unit :=
  let ami_id := imageId item in
  let tags := tagSet item in
  let asg_name := find_asg_name tags in
  ami_info <- call (DescribeImages [ami_id])
                   (fun h => describe_images svc h [ami_id]) ;;
  first_image <- index0 ami_info ;;
  let ami_public := Public first_image in
  if ami_public
  then remediate event_time account region item asg_name
  else ret tt.

(** Lines 57-110.  The [context] argument is not read. *)
Definition lambda_handler (event : ChangeEvent) : M HandlerResponse :=
  let event_time := eventTime event in
  let account := account event in
  let region := region event in
  for_each (process_item event_time account region) (items event) ;;
  ret {| statusCode := 200;
         body := json_dumps "Evaluation complete." |}.

End Handler.

(** ** Reading a trace *)

(** The service calls of a trace, in order, without the printed lines. *)
Fixpoint calls (tr : Trace) : list Call :=
  match tr with
  | [] => []
  | Called c :: rest => c :: calls rest
  | Printed _ :: rest => calls rest
  end.

(** The event is a request to suspend a scaling group. *)
Definition is_suspension (e : Event) : bool :=
  match e with
  | Called (SuspendProcesses _) => true
  | _ => false
  end.

(** The event is a request to terminate instance [iid]. *)
Definition terminates (iid : string) (e : Event) : bool :=
  match e with
  | Called (TerminateInstances ids) => existsb (String.eqb iid) ids
  | _ => false
  end.

(** The event submits a finding whose resource is instance [iid]. *)
Definition reports (iid : string) (e : Event) : bool :=
  match e with
  | Called (BatchImportFindings fs) =>
      existsb
        (fun f => existsb (fun r => String.eqb iid (ResourceId r)) (Resources f))
        fs
  | _ => false
  end.

(** How many events of a trace satisfy a test. *)
Definition count (p : Event -> bool) (tr : Trace) : nat :=
  length (filter p tr).

(** What a computation started after [h] adds to the trace. *)
Definition events_of {A : Type} (m : M A) (h : Trace) : Trace :=
  skipn (length h) (fst (m h)).

(** The [EventDetails] the handler builds for an item (lines 98-105). *)
Definition details_of (event : ChangeEvent) (item : Item) : EventDetails :=
  {| timestamp := eventTime event;
     instance_id := instanceId item;
     image_id := imageId item;
     account_id := account event;
     details_region := region event;
     auto_scaling_group_name := find_asg_name (tagSet item) |}.

(** The loop body of [lambda_handler] on a given event. *)
Definition body_of (svc : Services) (event : ChangeEvent) : Item -> M unit :=
  process_item svc (eventTime event) (account event) (region event).

(** The lookup made for an item after [h] answers with a list whose first
    image is public. *)
Definition reported_public (svc : Services) (h : Trace) (item : Item) : bool :=
  match describe_images svc h [imageId item] with
  | inr (first_image :: _) => Public first_image
  | _ => false
  end.

(** The line printed after the suspension request, by its outcome. *)
Definition suspend_line (name : string) (outcome : Exception + unit) : string :=
  match outcome with
  | inr _ => "Suspended ASG: " ++ name
  | inl e => "Error suspending ASG " ++ name ++ ": " ++ str e
  end.

(** The line printed after the termination request, by its outcome. *)
Definition terminate_line (iid : string) (outcome : Exception + unit) : string :=
  match outcome with
  | inr _ => "Terminating instance: " ++ iid
  | inl e => "Error terminating instance " ++ iid ++ ": " ++ str e
  end.

(** The fixed response of line 107-110. *)
Definition evaluation_complete : HandlerResponse :=
  {| statusCode := 200;
     body := String dquote ("Evaluation complete." ++ String dquote EmptyString) |}.

(** The trace at the moment the termination of [item]'s instance is
    requested: the trace [h] the item started from, the lookup, and whatever
    the guarded suspension added. *)
Definition before_termination (svc : Services) (item : Item) (h : Trace) : Trace :=
  fst (suspend_group svc (find_asg_name (tagSet item))
         (h ++ [Called (DescribeImages [imageId item])])).

(** What the compute service answers to the termination request. *)
Definition termination_outcome (svc : Services) (item : Item) (h : Trace)
    : Exception + unit :=
  terminate_instances svc (before_termination svc item h) [instanceId item].

(** What the scaling service answers to the suspension request for group
    [name]. *)
Definition suspension_outcome (svc : Services) (item : Item) (name : string)
    (h : Trace) : Exception + unit :=
  suspend_processes svc (h ++ [Called (DescribeImages [imageId item])]) name.

(** The trace at the moment the finding for [item] is submitted. *)
Definition before_submission (svc : Services) (item : Item) (h : Trace) : Trace :=
  fst (terminate_instance svc (instanceId item) (before_termination svc item h)).

(** What the findings service answers to the submission for [item]. *)
Definition submission_outcome (svc : Services) (event : ChangeEvent)
    (item : Item) (h : Trace) : Exception + string :=
  batch_import_findings svc (before_submission svc item h)
    [make_finding (details_of event item)].

(** Two answers of the image lookup agree on what [Images][0] gives: the
    same exception, or lists with the same first element (both empty
    included). *)
Definition same_first_image (a b : Exception + list Image) : Prop :=
  match a, b with
  | inl e1, inl e2 => e1 = e2
  | inr l1, inr l2 => hd_error l1 = hd_error l2
  | _, _ => False
  end.

(** Two sets of clients that differ at most in the images after the first
    of each lookup answer. *)
Definition agree_up_to_first_image (s1 s2 : Services) : Prop :=
  (forall h ids,
      same_first_image (describe_images s1 h ids) (describe_images s2 h ids))
  /\ (forall h name, suspend_processes s1 h name = suspend_processes s2 h name)
  /\ (forall h ids, terminate_instances s1 h ids = terminate_instances s2 h ids)
  /\ (forall h fs,
         batch_import_findings s1 h fs = batch_import_findings s2 h fs).

(** The two requests whose failure the handler does not catch. *)
Definition fatal_request (c : Call) : bool :=
  match c with
  | DescribeImages _ | BatchImportFindings _ => true
  | SuspendProcesses _ | TerminateInstances _ => false
  end.

(** [Resources[0].Details.Other.AutoScalingGroupName], for each resource of
    a finding. *)
Definition group_names (f : Finding) : list string :=
  map (fun r => AutoScalingGroupName (Other (Details r))) (Resources f).

(** The requests made for one item, by what its lookup reported: the
    lookup alone, or the lookup followed by the remediation of lines
    82-105. *)
Definition item_requests (event : ChangeEvent) (item : Item) (public : bool)
    : list Call :=
  DescribeImages [imageId item]
    :: if public
       then match find_asg_name (tagSet item) with
            | Some name => if truthy name then [SuspendProcesses name] else []
            | None => []
            end
            ++ [ TerminateInstances [instanceId item];
                 BatchImportFindings [make_finding (details_of event item)] ]
       else [].

(** The event with another list of items. *)
Definition with_items (event : ChangeEvent) (l : list Item) : ChangeEvent :=
  {| eventTime := eventTime event;
     account := account event;
     region := region event;
     items := l |}.

(** ** Sample inputs *)

Module Sample.

Definition asg_key : string := "aws:autoscaling:groupName".

(** An instance launched by the group [my-asg]. *)
Definition grouped : Item :=
  {| instanceId := "i-1"; imageId := "ami-1";
     tagSet := [ {| key := "Name"; value := "web" |};
                 {| key := asg_key; value := "my-asg" |} ] |}.

(** An instance without tags. *)
Definition standalone : Item :=
  {| instanceId := "i-2"; imageId := "ami-2"; tagSet := [] |}.

(** An instance whose group tag has an empty value. *)
Definition blank_group : Item :=
  {| instanceId := "i-3"; imageId := "ami-3";
     tagSet := [ {| key := asg_key; value := EmptyString |} ] |}.

(** An instance whose tag list has the group key twice. *)
Definition twice_tagged : Item :=
  {| instanceId := "i-4"; imageId := "ami-4";
     tagSet := [ {| key := "Name"; value := "web" |};
                 {| key := asg_key; value := "first-asg" |};
                 {| key := asg_key; value := "second-asg" |} ] |}.

Definition event_of (l : list Item) : ChangeEvent :=
  {| eventTime := "2024-01-01T00:00:00Z"; account := "123456789012";
     region := "eu-west-2"; items := l |}.

Definition denied : Exception := ClientError "AccessDenied".

(** Every image is public and every request succeeds. *)
Definition all_public : Services :=
  {| describe_images := fun _ _ => inr [ {| Public := true |} ];
     suspend_processes := fun _ _ => inr tt;
     terminate_instances := fun _ _ => inr tt;
     batch_import_findings := fun _ _ => inr "ok" |}.

(** Every image is private. *)
Definition all_private : Services :=
  {| describe_images := fun _ _ => inr [ {| Public := false |} ];
     suspend_processes := fun _ _ => inr tt;
     terminate_instances := fun _ _ => inr tt;
     batch_import_findings := fun _ _ => inr "ok" |}.

(** Images are public; suspension and termination are refused. *)
Definition remediation_denied : Services :=
  {| describe_images := fun _ _ => inr [ {| Public := true |} ];
     suspend_processes := fun _ _ => inl denied;
     terminate_instances := fun _ _ => inl denied;
     batch_import_findings := fun _ _ => inr "ok" |}.

(** The image lookup is refused. *)
Definition lookup_denied : Services :=
  {| describe_images := fun _ _ => inl denied;
     suspend_processes := fun _ _ => inr tt;
     terminate_instances := fun _ _ => inr tt;
     batch_import_findings := fun _ _ => inr "ok" |}.

(** Images are public; the findings service refuses the submission. *)
Definition import_denied : Services :=
  {| describe_images := fun _ _ => inr [ {| Public := true |} ];
     suspend_processes := fun _ _ => inr tt;
     terminate_instances := fun _ _ => inr tt;
     batch_import_findings := fun _ _ => inl denied |}.

(** The image lookup succeeds with an empty list. *)
Definition no_images : Services :=
  {| describe_images := fun _ _ => inr [];
     suspend_processes := fun _ _ => inr tt;
     terminate_instances := fun _ _ => inr tt;
     batch_import_findings := fun _ _ => inr "ok" |}.

(** As [all_public], with a second, private image behind the first. *)
Definition two_images : Services :=
  {| describe_images :=
       fun _ _ => inr [ {| Public := true |}; {| Public := false |} ];
     suspend_processes := fun _ _ => inr tt;
     terminate_instances := fun _ _ => inr tt;
     batch_import_findings := fun _ _ => inr "ok" |}.

End Sample.

(** Membership in an evaluated trace. *)
Ltac find_in_trace := repeat first [left; reflexivity | right].

(** ** Running the handler on the samples *)

Example run_public_grouped :
  lambda_handler Sample.all_public (Sample.event_of [Sample.grouped]) [] =
  ([ Called (DescribeImages ["ami-1"]);
     Called (SuspendProcesses "my-asg");
     Printed "Suspended ASG: my-asg";
     Called (TerminateInstances ["i-1"]);
     Printed "Terminating instance: i-1";
     Called (BatchImportFindings
               [make_finding (details_of (Sample.event_of [Sample.grouped])
                                         Sample.grouped)]);
     Printed "ok" ],
   inr evaluation_complete).
Proof. reflexivity. Qed.

Example run_private :
  lambda_handler Sample.all_private (Sample.event_of [Sample.grouped]) [] =
  ([ Called (DescribeImages ["ami-1"]) ], inr evaluation_complete).
Proof. reflexivity. Qed.

Example run_remediation_denied :
  calls (fst (lambda_handler Sample.remediation_denied
                (Sample.event_of [Sample.grouped; Sample.standalone]) [])) =
  [ DescribeImages ["ami-1"]; SuspendProcesses "my-asg";
    TerminateInstances ["i-1"];
    BatchImportFindings
      [make_finding (details_of (Sample.event_of []) Sample.grouped)];
    DescribeImages ["ami-2"]; TerminateInstances ["i-2"];
    BatchImportFindings
      [make_finding (details_of (Sample.event_of []) Sample.standalone)] ].
Proof. reflexivity. Qed.

(** ** Equations of the monad *)

Lemma bind_ok {A B : Type} (m : M A) (k : A -> M B) (h h' : Trace) (a : A) :
  m h = (h', inr a) -> bind m k h = k a h'.
Proof. intros E. unfold bind. now rewrite E. Qed.

Lemma bind_raise {A B : Type} (m : M A) (k : A -> M B) (h h' : Trace)
    (e : Exception) :
  m h = (h', inl e) -> bind m k h = (h', inl e).
Proof. intros E. unfold bind. now rewrite E. Qed.

Lemma for_each_cons_ok {A : Type} (body : A -> M unit) (x : A) (xs : list A)
    (h h' : Trace) :
  body x h = (h', inr tt) -> for_each body (x :: xs) h = for_each body xs h'.
Proof. intros E. simpl. unfold bind. now rewrite E. Qed.

Lemma for_each_cons_raise {A : Type} (body : A -> M unit) (x : A)
    (xs : list A) (h h' : Trace) (e : Exception) :
  body x h = (h', inl e) -> for_each body (x :: xs) h = (h', inl e).
Proof. intros E. simpl. unfold bind. now rewrite E. Qed.

Lemma for_each_app {A : Type} (body : A -> M unit) (l1 l2 : list A)
    (h : Trace) :
  for_each body (l1 ++ l2) h =
  match for_each body l1 h with
  | (h', inr _) => for_each body l2 h'
  | (h', inl e) => (h', inl e)
  end.
Proof.
  revert h. induction l1 as [|x xs IH]; intros h; simpl.
  - reflexivity.
  - unfold bind. destruct (body x h) as [h1 [e|[]]]; [reflexivity|apply IH].
Qed.

Lemma skipn_length_app {A : Type} (l1 l2 : list A) :
  skipn (length l1) (l1 ++ l2) = l2.
Proof. induction l1 as [|x xs IH]; simpl; [reflexivity|exact IH]. Qed.

Lemma events_of_extends {A : Type} (m : M A) (h evs : Trace) :
  fst (m h) = h ++ evs -> events_of m h = evs.
Proof. intros E. unfold events_of. rewrite E. apply skipn_length_app. Qed.

Lemma calls_app (t1 t2 : Trace) : calls (t1 ++ t2) = calls t1 ++ calls t2.
Proof.
  induction t1 as [|[c|line] t IH]; simpl; [reflexivity| |exact IH].
  now rewrite IH.
Qed.

Lemma count_app (p : Event -> bool) (t1 t2 : Trace) :
  count p (t1 ++ t2) = count p t1 + count p t2.
Proof. unfold count. now rewrite filter_app, length_app. Qed.

(** ** Equations of the handler's steps *)

Section Steps.

Variable svc : Services.

(** Without a usable group name nothing is requested. *)
Lemma suspend_group_none (h : Trace) :
  suspend_group svc None h = (h, inr tt).
Proof. reflexivity. Qed.

Lemma suspend_group_falsy (name : string) (h : Trace) :
  truthy name = false -> suspend_group svc (Some name) h = (h, inr tt).
Proof. intros E. unfold suspend_group. now rewrite E. Qed.

(** With a group name the request is made once, a line is printed for its
    outcome, and the step ends normally either way. *)
Lemma suspend_group_named (name : string) (h : Trace) :
  truthy name = true ->
  suspend_group svc (Some name) h =
  (h ++ [ Called (SuspendProcesses name);
          Printed (suspend_line name (suspend_processes svc h name)) ],
   inr tt).
Proof.
  intros E. unfold suspend_group. rewrite E.
  unfold try_except, bind, call, print.
  destruct (suspend_processes svc h name) as [e|[]]; simpl;
    now rewrite <- app_assoc.
Qed.

(** The termination request is made once, a line is printed for its
    outcome, and the step ends normally either way. *)
Lemma terminate_instance_run (iid : string) (h : Trace) :
  terminate_instance svc iid h =
  (h ++ [ Called (TerminateInstances [iid]);
          Printed (terminate_line iid (terminate_instances svc h [iid])) ],
   inr tt).
Proof.
  unfold terminate_instance, try_except, bind, call, print.
  destruct (terminate_instances svc h [iid]) as [e|[]]; simpl;
    now rewrite <- app_assoc.
Qed.

(** The submission: the answer is printed and returned, a failure is
    passed on. *)
Lemma send_run (d : EventDetails) (h : Trace) :
  send_invalid_ami_event_to_security_hub svc d h =
  match batch_import_findings svc h [make_finding d] with
  | inr response =>
      (h ++ [ Called (BatchImportFindings [make_finding d]);
              Printed response ],
       inr response)
  | inl e => (h ++ [ Called (BatchImportFindings [make_finding d]) ], inl e)
  end.
Proof.
  unfold send_invalid_ami_event_to_security_hub, bind, call, print, ret.
  destruct (batch_import_findings svc h [make_finding d]) as [e|r]; simpl;
    [reflexivity|now rewrite <- app_assoc].
Qed.

End Steps.

(** ** Equations of the loop body *)

Section Body.

Variable svc : Services.
Variable event : ChangeEvent.

(** A failed lookup ends the item with the lookup's exception. *)
Lemma process_item_lookup_raises (item : Item) (h : Trace) (e : Exception) :
  describe_images svc h [imageId item] = inl e ->
  body_of svc event item h = (h ++ [Called (DescribeImages [imageId item])], inl e).
Proof.
  intros E. unfold body_of, process_item, bind, call. now rewrite E.
Qed.

(** An empty answer ends the item with an [IndexError]. *)
Lemma process_item_no_image (item : Item) (h : Trace) :
  describe_images svc h [imageId item] = inr [] ->
  body_of svc event item h =
  (h ++ [Called (DescribeImages [imageId item])], inl (IndexError "list index out of range")).
Proof.
  intros E. unfold body_of, process_item, bind, call. now rewrite E.
Qed.

(** A private first image ends the item normally. *)
Lemma process_item_private (item : Item) (h : Trace) (first_image : Image)
    (others : list Image) :
  describe_images svc h [imageId item] = inr (first_image :: others) ->
  Public first_image = false ->
  body_of svc event item h = (h ++ [Called (DescribeImages [imageId item])], inr tt).
Proof.
  intros E P. unfold body_of, process_item, bind, call. rewrite E. simpl.
  now rewrite P.
Qed.

(** A public first image leads to the submission, whose outcome decides
    how the item ends. *)
Lemma process_item_public (item : Item) (h : Trace) (first_image : Image)
    (others : list Image) :
  describe_images svc h [imageId item] = inr (first_image :: others) ->
  Public first_image = true ->
  body_of svc event item h =
  match submission_outcome svc event item h with
  | inr response =>
      (before_submission svc item h ++ [Called (BatchImportFindings [make_finding (details_of event item)]);
          Printed response],
       inr tt)
  | inl e => (before_submission svc item h ++ [Called (BatchImportFindings [make_finding (details_of event item)])], inl e)
  end.
Proof.
  intros E P. unfold body_of, process_item, bind at 1, call. rewrite E.
  unfold bind at 1. simpl. rewrite P. unfold remediate.
  unfold submission_outcome, before_submission, before_termination.
  set (h0 := h ++ [Called (DescribeImages [imageId item])]).
  set (asg := find_asg_name (tagSet item)).
  assert (S : snd (suspend_group svc asg h0) = inr tt).
  { destruct asg as [name|]; [|reflexivity].
    destruct (truthy name) eqn:T.
    - now rewrite suspend_group_named.
    - now rewrite suspend_group_falsy. }
  unfold bind at 1.
  destruct (suspend_group svc asg h0) as [h1 r1]. simpl in S. subst r1.
  unfold bind at 1. rewrite !terminate_instance_run. simpl.
  unfold bind at 1. rewrite send_run. subst asg.
  change (mkDetails _ _ _ _ _ _) with (details_of event item).
  destruct (batch_import_findings svc _ _) as [e|r]; reflexivity.
Qed.

(** The trace before the submission, spelled out. *)
Lemma before_submission_exact (item : Item) (h : Trace) :
  before_submission svc item h =
  h ++ Called (DescribeImages [imageId item])
    :: match find_asg_name (tagSet item) with
       | Some name =>
           if truthy name
           then [ Called (SuspendProcesses name);
                  Printed (suspend_line name
                             (suspension_outcome svc item name h)) ]
           else []
       | None => []
       end
    ++ [ Called (TerminateInstances [instanceId item]);
         Printed (terminate_line (instanceId item)
                    (termination_outcome svc item h)) ].
Proof.
  unfold before_submission. rewrite terminate_instance_run. cbn [fst].
  change (terminate_instances svc (before_termination svc item h)
            [instanceId item])
    with (termination_outcome svc item h).
  generalize (termination_outcome svc item h). intros o.
  unfold before_termination, suspension_outcome.
  destruct (find_asg_name (tagSet item)) as [name|].
  - destruct (truthy name) eqn:T.
    + rewrite suspend_group_named by exact T. cbn [fst].
      rewrite <- !app_assoc. reflexivity.
    + rewrite suspend_group_falsy by exact T. cbn [fst].
      rewrite <- !app_assoc. reflexivity.
  - cbn [suspend_group ret fst]. rewrite <- !app_assoc. reflexivity.
Qed.

End Body.

(** ** Events of one item *)

Section ItemEvents.

Variable svc : Services.
Variable event : ChangeEvent.

(** The handler is the loop of [body_of] followed by the response. *)
Lemma lambda_handler_loop :
  lambda_handler svc event =
  (for_each (body_of svc event) (items event) ;; ret evaluation_complete).
Proof. reflexivity. Qed.

(** Unless the lookup reports a public first image, the lookup is all
    that happens for the item. *)
Lemma item_events_not_public (item : Item) (h : Trace) :
  reported_public svc h item = false ->
  events_of (body_of svc event item) h =
  [Called (DescribeImages [imageId item])].
Proof.
  unfold reported_public. intros R. apply events_of_extends.
  destruct (describe_images svc h [imageId item]) as [e|[|img imgs]] eqn:E.
  - now rewrite (process_item_lookup_raises _ _ _ _ _ E).
  - now rewrite (process_item_no_image _ _ _ _ E).
  - now rewrite (process_item_private _ _ _ _ _ _ E R).
Qed.

(** When it does, the item's events are the lookup, the suspension if a
    group name passes the test, the termination and the submission, each
    request followed by its printed line. *)
Lemma item_events_public_exact (item : Item) (h : Trace) :
  reported_public svc h item = true ->
  events_of (body_of svc event item) h =
  Called (DescribeImages [imageId item])
    :: match find_asg_name (tagSet item) with
       | Some name =>
           if truthy name
           then [ Called (SuspendProcesses name);
                  Printed (suspend_line name
                             (suspension_outcome svc item name h)) ]
           else []
       | None => []
       end
    ++ [ Called (TerminateInstances [instanceId item]);
         Printed (terminate_line (instanceId item)
                    (termination_outcome svc item h));
         Called (BatchImportFindings [make_finding (details_of event item)]) ]
    ++ match submission_outcome svc event item h with
       | inr response => [Printed response]
       | inl _ => []
       end.
Proof.
  unfold reported_public. intros R.
  destruct (describe_images svc h [imageId item]) as [e|[|img imgs]] eqn:E;
    try discriminate.
  apply events_of_extends.
  rewrite (process_item_public _ _ _ _ _ _ E R).
  destruct (submission_outcome svc event item h) as [e|r]; cbn [fst];
    rewrite before_submission_exact; rewrite <- !app_assoc; cbn [app];
    rewrite <- !app_assoc; reflexivity.
Qed.

Lemma item_events_public (item : Item) (h : Trace) :
  reported_public svc h item = true ->
  exists line_s line_t : string,
    events_of (body_of svc event item) h =
    Called (DescribeImages [imageId item])
      :: match find_asg_name (tagSet item) with
         | Some name =>
             if truthy name
             then [ Called (SuspendProcesses name); Printed line_s ]
             else []
         | None => []
         end
      ++ [ Called (TerminateInstances [instanceId item]);
           Printed line_t;
           Called (BatchImportFindings [make_finding (details_of event item)]) ]
      ++ match submission_outcome svc event item h with
         | inr response => [Printed response]
         | inl _ => []
         end.
Proof.
  intros R. rewrite (item_events_public_exact item h R).
  destruct (find_asg_name (tagSet item)) as [name|].
  - exists (suspend_line name (suspension_outcome svc item name h)).
    eexists. reflexivity.
  - exists EmptyString. eexists. reflexivity.
Qed.

(** The body only ever extends the trace. *)
Lemma body_extends (item : Item) (h : Trace) :
  fst (body_of svc event item h) = h ++ events_of (body_of svc event item) h.
Proof.
  destruct (describe_images svc h [imageId item]) as [e|[|img imgs]] eqn:E.
  - rewrite item_events_not_public by (unfold reported_public; now rewrite E).
    now rewrite (process_item_lookup_raises _ _ _ _ _ E).
  - rewrite item_events_not_public by (unfold reported_public; now rewrite E).
    now rewrite (process_item_no_image _ _ _ _ E).
  - destruct (Public img) eqn:P.
    + assert (R : reported_public svc h item = true)
        by (unfold reported_public; now rewrite E).
      unfold events_of.
      rewrite (process_item_public _ _ _ _ _ _ E P).
      destruct (submission_outcome svc event item h) as [e|r]; cbn [fst];
        rewrite before_submission_exact; rewrite <- !app_assoc;
        now rewrite skipn_length_app.
    + rewrite item_events_not_public by (unfold reported_public; now rewrite E).
      now rewrite (process_item_private _ _ _ _ _ _ E P).
Qed.

End ItemEvents.

(** ** Counting terminations and findings *)

Lemma existsb_count (p : Event -> bool) (tr : Trace) :
  existsb p tr = negb (Nat.eqb (count p tr) 0).
Proof.
  unfold count. induction tr as [|e t IH]; simpl; [reflexivity|].
  destruct (p e); simpl; [reflexivity|exact IH].
Qed.

(** The tag scan returns the value of a tag when no other tag shares its
    key: for tag lists with one tag per key, "the list has the group key
    with value [v]" and "the scan finds [v]" are the same. *)
Lemma find_asg_name_unique_key (tags : list Tag) (t : Tag) :
  In t tags ->
  key t = "aws:autoscaling:groupName" ->
  (forall t', In t' tags -> key t' = key t -> t' = t) ->
  find_asg_name tags = Some (value t).
Proof.
  intros I K U. induction tags as [|t0 rest IH]; [contradiction|].
  simpl. destruct (String.eqb (key t0) "aws:autoscaling:groupName") eqn:E.
  - apply String.eqb_eq in E.
    rewrite (U t0 (or_introl eq_refl)); [reflexivity|congruence].
  - destruct I as [->|I].
    + rewrite K in E. now rewrite String.eqb_refl in E.
    + apply IH; [exact I|]. intros t' I' K'. apply U; [now right|exact K'].
Qed.

(** Without a tag of that key the scan finds nothing, and conversely. *)
Lemma find_asg_name_none (tags : list Tag) :
  find_asg_name tags = None <->
  (forall t, In t tags -> key t <> "aws:autoscaling:groupName").
Proof.
  induction tags as [|t0 rest IH]; simpl.
  - split; [intros _ t []|reflexivity].
  - destruct (String.eqb (key t0) "aws:autoscaling:groupName") eqn:E.
    + split; [discriminate|]. intros H. apply String.eqb_eq in E.
      now destruct (H t0 (or_introl eq_refl)).
    + apply String.eqb_neq in E. rewrite IH. split.
      * intros H t [<-|I]; [exact E|now apply H].
      * intros H t I. apply H. now right.
Qed.

(** What the scan finds is the value of a tag of the list with that key. *)
Lemma find_asg_name_some (tags : list Tag) (v : string) :
  find_asg_name tags = Some v ->
  exists t, In t tags /\ key t = "aws:autoscaling:groupName" /\ value t = v.
Proof.
  induction tags as [|t0 rest IH]; simpl; [discriminate|].
  destruct (String.eqb (key t0) "aws:autoscaling:groupName") eqn:E.
  - intros [= <-]. apply String.eqb_eq in E. exists t0. auto.
  - intros F. destruct (IH F) as (t & I & K & V). exists t. auto.
Qed.

Section Counting.

Variable svc : Services.
Variable event : ChangeEvent.

(** Within one item, instance [iid] is terminated as often as a finding
    is submitted for it: once each if it is the item's instance and the
    image was reported public, never otherwise. *)
Lemma item_counts (item : Item) (h : Trace) (iid : string) :
  count (terminates iid) (events_of (body_of svc event item) h) =
  (if andb (reported_public svc h item) (String.eqb iid (instanceId item))
   then 1 else 0)
  /\ count (reports iid) (events_of (body_of svc event item) h) =
     (if andb (reported_public svc h item) (String.eqb iid (instanceId item))
      then 1 else 0).
Proof.
  destruct (reported_public svc h item) eqn:R.
  - destruct (item_events_public svc event item h R) as (ls & lt & ->).
    cbn [andb]. unfold count.
    assert (S : forall p : Event -> bool,
               p (Called (DescribeImages [imageId item])) = false ->
               (forall c, p (Called (SuspendProcesses c)) = false) ->
               (forall l, p (Printed l) = false) ->
               forall x y, 
               length (filter p
                 (Called (DescribeImages [imageId item])
                    :: match find_asg_name (tagSet item) with
                       | Some name =>
                           if truthy name
                           then [Called (SuspendProcesses name); Printed ls]
                           else []
                       | None => []
                       end
                    ++ [x; Printed lt; y]
                    ++ match submission_outcome svc event item h with
                       | inr response => [Printed response]
                       | inl _ => []
                       end)) =
               length (filter p [x; y])).
    { intros p P1 P2 P3 x y. simpl. rewrite P1.
      rewrite filter_app, length_app.
      replace (length (filter p _)) with 0.
      2:{ destruct (find_asg_name (tagSet item)) as [name|]; [|reflexivity].
          destruct (truthy name); [|reflexivity].
          simpl. now rewrite P2, P3. }
      simpl. rewrite (P3 lt).
      destruct (submission_outcome svc event item h) as [e|r];
        simpl; rewrite ?P3; destruct (p x), (p y); reflexivity. }
    split; (rewrite S; [|reflexivity|reflexivity|reflexivity]); simpl;
      rewrite orb_false_r; destruct (String.eqb iid (instanceId item));
      reflexivity.
  - rewrite (item_events_not_public svc event item h R). split; reflexivity.
Qed.

(** The loop extends the trace, and in what it adds every instance is
    terminated as often as a finding is submitted for it. *)
Lemma loop_counts (l : list Item) (h : Trace) :
  exists evs : Trace,
    fst (for_each (body_of svc event) l h) = h ++ evs
    /\ forall iid, count (terminates iid) evs = count (reports iid) evs.
Proof.
  revert h. induction l as [|item rest IH]; intros h.
  - exists []. simpl. now rewrite app_nil_r.
  - pose proof (body_extends svc event item h) as X.
    simpl. unfold bind.
    destruct (body_of svc event item h) as [h1 [e|[]]] eqn:B; simpl in X.
    + exists (events_of (body_of svc event item) h). split; [exact X|].
      intros iid. destruct (item_counts item h iid) as [-> ->]. reflexivity.
    + destruct (IH h1) as (evs & F & C).
      exists (events_of (body_of svc event item) h ++ evs). split.
      * rewrite F, X. now rewrite app_assoc.
      * intros iid. rewrite !count_app, C.
        destruct (item_counts item h iid) as [-> ->]. reflexivity.
Qed.

(** The response adds nothing to the trace of the loop. *)
Lemma lambda_handler_trace (h : Trace) :
  fst (lambda_handler svc event h) =
  fst (for_each (body_of svc event) (items event) h).
Proof.
  rewrite lambda_handler_loop. unfold bind.
  now destruct (for_each (body_of svc event) (items event) h) as [h1 [e|[]]].
Qed.

End Counting.

(** ** The loop around one item *)

Section Loop.

Variable svc : Services.
Variable event : ChangeEvent.

(** The invocation, seen from one of its items: the items before it ran
    to their end, and the item's own end decides whether the rest is
    processed. *)
Lemma lambda_handler_split (pre post : list Item) (item : Item) (h1 : Trace) :
  items event = pre ++ item :: post ->
  for_each (body_of svc event) pre [] = (h1, inr tt) ->
  lambda_handler svc event [] =
  match body_of svc event item h1 with
  | (h2, inr _) =>
      (for_each (body_of svc event) post ;; ret evaluation_complete) h2
  | (h2, inl e) => (h2, inl e)
  end.
Proof.
  intros I P. rewrite lambda_handler_loop. unfold bind at 1.
  rewrite I, for_each_app, P. cbn [for_each]. unfold bind at 1.
  destruct (body_of svc event item h1) as [h2 [e|[]]]; reflexivity.
Qed.

(** Every finding submitted while an item is processed is the one built
    from that item. *)
Lemma item_findings (item : Item) (h : Trace) (fs : list Finding) :
  In (Called (BatchImportFindings fs)) (events_of (body_of svc event item) h) ->
  fs = [make_finding (details_of event item)].
Proof.
  destruct (reported_public svc h item) eqn:R.
  - destruct (item_events_public svc event item h R) as (ls & lt & ->).
    intros [X|X]; [discriminate|].
    apply in_app_or in X. destruct X as [X|X].
    + destruct (find_asg_name (tagSet item)) as [name|]; [|contradiction].
      destruct (truthy name); [|contradiction].
      destruct X as [X|[X|[]]]; discriminate.
    + destruct X as [X|[X|[X|X]]]; try discriminate.
      * now injection X as <-.
      * destruct (submission_outcome svc event item h); [contradiction|].
        destruct X as [X|[]]; discriminate.
  - rewrite (item_events_not_public svc event item h R).
    intros [X|[]]. discriminate.
Qed.

(** Every finding submitted by the loop is built from one of its items. *)
Lemma loop_findings (l : list Item) (h : Trace) (fs : list Finding) :
  In (Called (BatchImportFindings fs)) (fst (for_each (body_of svc event) l h)) ->
  In (Called (BatchImportFindings fs)) h
  \/ exists item, In item l /\ fs = [make_finding (details_of event item)].
Proof.
  revert h. induction l as [|item rest IH]; intros h; simpl.
  - now left.
  - pose proof (body_extends svc event item h) as X. unfold bind.
    destruct (body_of svc event item h) as [h1 [e|[]]] eqn:B; simpl in X.
    + simpl. rewrite X. intros I. apply in_app_or in I.
      destruct I as [I|I]; [now left|right].
      exists item. split; [now left|exact (item_findings item h fs I)].
    + intros I. destruct (IH h1 I) as [J|(it & J & F)].
      * rewrite X in J. apply in_app_or in J.
        destruct J as [J|J]; [now left|right].
        exists item. split; [now left|exact (item_findings item h fs J)].
      * right. exists it. split; [now right|exact F].
Qed.

(** A submitted finding of the invocation is the finding of an item of
    the event. *)
Lemma handler_findings (fs : list Finding) :
  In (Called (BatchImportFindings fs)) (fst (lambda_handler svc event [])) ->
  exists item, In item (items event)
               /\ fs = [make_finding (details_of event item)].
Proof.
  rewrite lambda_handler_trace. intros I.
  destruct (loop_findings (items event) [] fs I) as [[]|X]. exact X.
Qed.

(** An item raises only from its lookup or from its submission: the
    trace then ends with that request. *)
Lemma item_raises (item : Item) (h h' : Trace) (e : Exception) :
  body_of svc event item h = (h', inl e) ->
  exists (h0 : Trace) (c : Call),
    h' = h0 ++ [Called c]
    /\ (c = DescribeImages [imageId item]
        \/ c = BatchImportFindings [make_finding (details_of event item)]).
Proof.
  destruct (describe_images svc h [imageId item]) as [e0|[|img imgs]] eqn:E.
  - rewrite (process_item_lookup_raises _ _ _ _ _ E). intros [= <- _].
    eauto.
  - rewrite (process_item_no_image _ _ _ _ E). intros [= <- _]. eauto.
  - destruct (Public img) eqn:P.
    + rewrite (process_item_public _ _ _ _ _ _ E P).
      destruct (submission_outcome svc event item h); intros [= <- _].
      eauto.
    + rewrite (process_item_private _ _ _ _ _ _ E P). discriminate.
Qed.

End Loop.

(** The requests made for an item whose image is reported public. *)
Lemma item_calls_public (svc : Services) (event : ChangeEvent) (item : Item)
    (h : Trace) :
  reported_public svc h item = true ->
  calls (events_of (body_of svc event item) h) =
  DescribeImages [imageId item]
    :: match find_asg_name (tagSet item) with
       | Some name => if truthy name then [SuspendProcesses name] else []
       | None => []
       end
    ++ [ TerminateInstances [instanceId item];
         BatchImportFindings [make_finding (details_of event item)] ].
Proof.
  intros R. destruct (item_events_public svc event item h R) as (ls & lt & ->).
  simpl. f_equal. rewrite calls_app. simpl.
  destruct (submission_outcome svc event item h) as [e|r]; simpl;
    (destruct (find_asg_name (tagSet item)) as [name|]; [|reflexivity]);
    now destruct (truthy name).
Qed.

(** ** Ends of an invocation *)

Section Ends.

Variable svc : Services.
Variable event : ChangeEvent.

(** When the loop raises, its trace ends with a lookup or a submission. *)
Lemma loop_raises (l : list Item) (h h' : Trace) (e : Exception) :
  for_each (body_of svc event) l h = (h', inl e) ->
  exists (h0 : Trace) (c : Call),
    h' = h0 ++ [Called c] /\ fatal_request c = true.
Proof.
  revert h. induction l as [|item rest IH]; intros h; simpl.
  - discriminate.
  - unfold bind.
    destruct (body_of svc event item h) as [h1 [e1|[]]] eqn:B.
    + intros [= <- _].
      destruct (item_raises svc event item h h1 e1 B) as (h0 & c & -> & [->| ->]);
        exists h0; eexists; split; reflexivity.
    + apply IH.
Qed.

(** With lookups that always answer some image and submissions that
    always succeed, no item raises. *)
Lemma loop_completes (l : list Item) (h : Trace) :
  (forall h ids, exists img imgs, describe_images svc h ids = inr (img :: imgs)) ->
  (forall h fs, exists response, batch_import_findings svc h fs = inr response) ->
  snd (for_each (body_of svc event) l h) = inr tt.
Proof.
  intros D S. revert h. induction l as [|item rest IH]; intros h; simpl.
  - reflexivity.
  - unfold bind.
    destruct (body_of svc event item h) as [h1 [e1|[]]] eqn:B; [|apply IH].
    exfalso. destruct (D h [imageId item]) as (img & imgs & E).
    destruct (Public img) eqn:P.
    + rewrite (process_item_public svc event item h img imgs E P) in B.
      unfold submission_outcome in B.
      destruct (S (before_submission svc item h)
                  [make_finding (details_of event item)]) as (r & Sr).
      rewrite Sr in B. discriminate.
    + rewrite (process_item_private svc event item h img imgs E P) in B.
      discriminate.
Qed.

(** The outcome of the invocation is that of the loop, a normal end
    being turned into the fixed response. *)
Lemma lambda_handler_outcome (h : Trace) :
  snd (lambda_handler svc event h) =
  match snd (for_each (body_of svc event) (items event) h) with
  | inr _ => inr evaluation_complete
  | inl e => inl e
  end.
Proof.
  rewrite lambda_handler_loop. unfold bind.
  now destruct (for_each (body_of svc event) (items event) h) as [h1 [e|[]]].
Qed.

End Ends.

(** The two sets of clients make every item behave the same. *)
Lemma body_agree (s1 s2 : Services) (event : ChangeEvent) (item : Item)
    (h : Trace) :
  agree_up_to_first_image s1 s2 ->
  body_of s1 event item h = body_of s2 event item h.
Proof.
  intros (D & S & T & B). specialize (D h [imageId item]).
  unfold same_first_image in D.
  destruct (describe_images s1 h [imageId item]) as [e1|l1] eqn:E1;
    destruct (describe_images s2 h [imageId item]) as [e2|l2] eqn:E2;
    try contradiction.
  - subst e2. now rewrite !(process_item_lookup_raises _ event item h e1).
  - destruct l1 as [|i1 r1]; destruct l2 as [|i2 r2]; try discriminate.
    + now rewrite !(process_item_no_image _ event item h).
    + injection D as <-. destruct (Public i1) eqn:P.
      * rewrite (process_item_public s1 event item h i1 r1 E1 P).
        rewrite (process_item_public s2 event item h i1 r2 E2 P).
        assert (X : before_submission s1 item h = before_submission s2 item h).
        { rewrite !before_submission_exact.
          unfold termination_outcome, suspension_outcome, before_termination.
          assert (G : forall a h0, suspend_group s1 a h0 = suspend_group s2 a h0).
          { intros [name|] h0; [|reflexivity].
            destruct (truthy name) eqn:Tn.
            - rewrite !suspend_group_named by exact Tn. now rewrite S.
            - now rewrite !suspend_group_falsy by exact Tn. }
          rewrite G, T.
          destruct (find_asg_name (tagSet item)) as [name|]; [|reflexivity].
          now rewrite S. }
        unfold submission_outcome. rewrite X, B. reflexivity.
      * rewrite (process_item_private s1 event item h i1 r1 E1 P).
        now rewrite (process_item_private s2 event item h i1 r2 E2 P).
Qed.

(** The events of an item that is reached are a segment of the trace of
    the invocation. *)
Lemma item_events_in_invocation (svc : Services) (event : ChangeEvent)
    (pre post : list Item) (item : Item) (h : Trace) :
  items event = pre ++ item :: post ->
  for_each (body_of svc event) pre [] = (h, inr tt) ->
  exists rest : Trace,
    fst (lambda_handler svc event []) =
    h ++ events_of (body_of svc event item) h ++ rest.
Proof.
  intros I P. rewrite lambda_handler_trace, I, for_each_app, P.
  cbn [for_each]. unfold bind.
  pose proof (body_extends svc event item h) as X.
  destruct (body_of svc event item h) as [h1 [e|[]]]; cbn [fst] in *.
  - exists []. now rewrite app_nil_r.
  - destruct (loop_counts svc event post h1) as (evs & -> & _).
    exists evs. now rewrite X, app_assoc.
Qed.

(** ** The claims *)

(** C1. In one invocation a finding is submitted for an instance exactly
    when its termination is requested.  Over the whole trace of
    [lambda_handler] every instance id has as many termination requests as
    submitted findings, hence one occurs if and only if the other does.
    The events of an item that is reached are a segment of that trace, and
    among them the finding for the item's instance and the termination of
    that instance both occur exactly when the lookup made for the item
    reported a public image. *)
Theorem C1_finding_iff_termination (svc : Services) (event : ChangeEvent) :
  (forall iid : string,
      count (reports iid) (fst (lambda_handler svc event [])) =
      count (terminates iid) (fst (lambda_handler svc event [])))
  /\ (forall iid : string,
         existsb (reports iid) (fst (lambda_handler svc event [])) =
         existsb (terminates iid) (fst (lambda_handler svc event [])))
  /\ (forall (pre post : list Item) (item : Item) (h : Trace),
         items event = pre ++ item :: post ->
         for_each (body_of svc event) pre [] = (h, inr tt) ->
         exists rest : Trace,
           fst (lambda_handler svc event []) =
           h ++ events_of (body_of svc event item) h ++ rest)
  /\ (forall (item : Item) (h : Trace),
         existsb (reports (instanceId item))
                 (events_of (body_of svc event item) h) =
         reported_public svc h item
         /\ existsb (terminates (instanceId item))
                    (events_of (body_of svc event item) h) =
            reported_public svc h item).
Proof.
  assert (G : forall iid,
             count (reports iid) (fst (lambda_handler svc event [])) =
             count (terminates iid) (fst (lambda_handler svc event []))).
  { intros iid. rewrite lambda_handler_trace.
    destruct (loop_counts svc event (items event) []) as (evs & -> & C).
    simpl. symmetry. apply C. }
  split; [exact G|]. split; [|split].
  - intros iid. now rewrite !existsb_count, G.
  - exact (item_events_in_invocation svc event).
  - intros item h. rewrite !existsb_count.
    destruct (item_counts svc event item h (instanceId item)) as [-> ->].
    rewrite String.eqb_refl, andb_true_r.
    now destruct (reported_public svc h item).
Qed.

Lemma C1_finding_iff_termination_witness :
  (forall iid : string,
      existsb (reports iid)
        (fst (lambda_handler Sample.remediation_denied
                (Sample.event_of [Sample.grouped; Sample.standalone]) [])) =
      existsb (terminates iid)
        (fst (lambda_handler Sample.remediation_denied
                (Sample.event_of [Sample.grouped; Sample.standalone]) [])))
  /\ exists rest : Trace,
       fst (lambda_handler Sample.remediation_denied
              (Sample.event_of [Sample.grouped; Sample.standalone]) []) =
       [] ++ events_of (body_of Sample.remediation_denied
                          (Sample.event_of [Sample.grouped; Sample.standalone])
                          Sample.grouped) [] ++ rest.
Proof.
  destruct (C1_finding_iff_termination Sample.remediation_denied
              (Sample.event_of [Sample.grouped; Sample.standalone]))
    as (_ & E & S & _).
  split; [exact E|].
  exact (S [] [Sample.standalone] Sample.grouped [] eq_refl eq_refl).
Defined.

(** C2. When the lookup made for an item answers with a first image that is
    not public, the item ends normally and the lookup is the only request
    made for it: no suspension, no termination, no finding. *)
Theorem C2_private_image_no_action (svc : Services) (event : ChangeEvent)
    (item : Item) (h : Trace) (first_image : Image) (others : list Image) :
  describe_images svc h [imageId item] = inr (first_image :: others) ->
  Public first_image = false ->
  body_of svc event item h =
    (h ++ [Called (DescribeImages [imageId item])], inr tt)
  /\ calls (events_of (body_of svc event item) h) =
     [DescribeImages [imageId item]].
Proof.
  intros E P. split.
  - exact (process_item_private svc event item h first_image others E P).
  - rewrite item_events_not_public; [reflexivity|].
    unfold reported_public. now rewrite E.
Qed.

Lemma C2_private_image_no_action_witness :
  body_of Sample.all_private (Sample.event_of [Sample.grouped])
          Sample.grouped [] =
    ([Called (DescribeImages ["ami-1"])], inr tt)
  /\ calls (events_of (body_of Sample.all_private
                               (Sample.event_of [Sample.grouped])
                               Sample.grouped) []) =
     [DescribeImages ["ami-1"]].
Proof.
  exact (C2_private_image_no_action Sample.all_private
           (Sample.event_of [Sample.grouped]) Sample.grouped []
           {| Public := false |} [] eq_refl eq_refl).
Defined.

(** C3. When the lookup made for an item reports a public image, the
    requests made for the item are, in this order: the lookup, the
    suspension of the group if the tag scan recorded a group name (a
    non-empty value), the termination of the instance, the submission of
    the finding.  When no group name was recorded (no tag of that key, or
    a value that fails the test [if asg_name:]) the suspension is left out
    and the termination and the submission still follow in that order. *)
Theorem C3_remediation_order (svc : Services) (event : ChangeEvent)
    (item : Item) (h : Trace) :
  reported_public svc h item = true ->
  (forall name : string,
      find_asg_name (tagSet item) = Some name ->
      truthy name = true ->
      calls (events_of (body_of svc event item) h) =
      [ DescribeImages [imageId item];
        SuspendProcesses name;
        TerminateInstances [instanceId item];
        BatchImportFindings [make_finding (details_of event item)] ])
  /\ ((forall name : string,
          find_asg_name (tagSet item) = Some name -> truthy name = false) ->
      calls (events_of (body_of svc event item) h) =
      [ DescribeImages [imageId item];
        TerminateInstances [instanceId item];
        BatchImportFindings [make_finding (details_of event item)] ]).
Proof.
  intros R. rewrite (item_calls_public svc event item h R). split.
  - intros name -> T. now rewrite T.
  - intros N. destruct (find_asg_name (tagSet item)) as [name|].
    + now rewrite (N name eq_refl).
    + reflexivity.
Qed.

Lemma C3_remediation_order_witness :
  calls (events_of (body_of Sample.remediation_denied
                            (Sample.event_of [Sample.grouped])
                            Sample.grouped) []) =
    [ DescribeImages ["ami-1"]; SuspendProcesses "my-asg";
      TerminateInstances ["i-1"];
      BatchImportFindings
        [make_finding (details_of (Sample.event_of [Sample.grouped])
                                  Sample.grouped)] ]
  /\ calls (events_of (body_of Sample.all_public
                               (Sample.event_of [Sample.standalone])
                               Sample.standalone) []) =
     [ DescribeImages ["ami-2"]; TerminateInstances ["i-2"];
       BatchImportFindings
         [make_finding (details_of (Sample.event_of [Sample.standalone])
                                   Sample.standalone)] ].
Proof.
  split.
  - exact (proj1 (C3_remediation_order Sample.remediation_denied
                    (Sample.event_of [Sample.grouped]) Sample.grouped []
                    eq_refl)
             "my-asg" eq_refl eq_refl).
  - apply (proj2 (C3_remediation_order Sample.all_public
                    (Sample.event_of [Sample.standalone]) Sample.standalone []
                    eq_refl)).
    intros name F. discriminate F.
Defined.

(** C10. When the tag scan of an item stops at a group tag whose value is
    the empty string, the item is handled as a standalone instance: if its
    image is reported public, no suspension is requested, the termination
    and the submission follow, and the submitted finding names the group
    as "Not part of an ASG", not as the empty string. *)
Theorem C10_empty_group_name_is_standalone (svc : Services)
    (event : ChangeEvent) (item : Item) (h : Trace) :
  find_asg_name (tagSet item) = Some EmptyString ->
  reported_public svc h item = true ->
  calls (events_of (body_of svc event item) h) =
    [ DescribeImages [imageId item];
      TerminateInstances [instanceId item];
      BatchImportFindings [make_finding (details_of event item)] ]
  /\ count is_suspension (events_of (body_of svc event item) h) = 0
  /\ group_names (make_finding (details_of event item)) =
     ["Not part of an ASG"].
Proof.
  intros F R. split; [|split].
  - rewrite (item_calls_public svc event item h R). now rewrite F.
  - destruct (item_events_public svc event item h R) as (ls & lt & ->).
    rewrite F. simpl.
    now destruct (submission_outcome svc event item h).
  - unfold group_names. simpl. now rewrite F.
Qed.

Lemma C10_empty_group_name_is_standalone_witness :
  calls (events_of (body_of Sample.all_public
                            (Sample.event_of [Sample.blank_group])
                            Sample.blank_group) []) =
    [ DescribeImages ["ami-3"];
      TerminateInstances ["i-3"];
      BatchImportFindings
        [make_finding (details_of (Sample.event_of [Sample.blank_group])
                                  Sample.blank_group)] ]
  /\ count is_suspension
       (events_of (body_of Sample.all_public
                           (Sample.event_of [Sample.blank_group])
                           Sample.blank_group) []) = 0
  /\ group_names (make_finding (details_of (Sample.event_of [Sample.blank_group])
                                           Sample.blank_group)) =
     ["Not part of an ASG"].
Proof.
  exact (C10_empty_group_name_is_standalone Sample.all_public
           (Sample.event_of [Sample.blank_group]) Sample.blank_group []
           eq_refl eq_refl).
Defined.

(** The scan stops at the first tag with the group key, whatever comes
    after it. *)
Lemma find_asg_name_first (tags before after : list Tag) (t : Tag) :
  tags = before ++ t :: after ->
  key t = "aws:autoscaling:groupName" ->
  (forall t', In t' before -> key t' <> "aws:autoscaling:groupName") ->
  find_asg_name tags = Some (value t).
Proof.
  intros -> K N. induction before as [|t0 rest IH]; simpl.
  - now rewrite K, String.eqb_refl.
  - destruct (String.eqb (key t0) "aws:autoscaling:groupName") eqn:E.
    + apply String.eqb_eq in E. now destruct (N t0 (or_introl eq_refl)).
    + apply IH. intros t' I. apply N. now right.
Qed.

(** C4, as stated, fails: the item below has a tag with key
    [aws:autoscaling:groupName] whose value is the empty string, and the
    finding submitted for it names the group "Not part of an ASG", which is
    not that value. *)
Lemma C4_group_name_counterexample :
  In (Called (BatchImportFindings
                [make_finding (details_of (Sample.event_of [Sample.blank_group])
                                          Sample.blank_group)]))
     (fst (lambda_handler Sample.all_public
             (Sample.event_of [Sample.blank_group]) []))
  /\ In {| key := "aws:autoscaling:groupName"; value := EmptyString |}
        (tagSet Sample.blank_group)
  /\ group_names (make_finding (details_of (Sample.event_of [Sample.blank_group])
                                           Sample.blank_group)) =
     ["Not part of an ASG"]
  /\ "Not part of an ASG" <> EmptyString.
Proof.
  split; [|split; [|split]].
  - vm_compute. find_in_trace.
  - left. reflexivity.
  - reflexivity.
  - discriminate.
Qed.

(** C4, amended.  Every finding submitted in an invocation belongs to an
    item of the event and has one resource.  Its
    [Details.Other.AutoScalingGroupName] is the value of the first tag of
    that item with key [aws:autoscaling:groupName] when there is such a
    tag and its value is not empty; it is the literal "Not part of an ASG"
    when the value of that first tag is empty, and when no tag of the item
    has that key. *)
Theorem C4_group_name_in_finding (svc : Services) (event : ChangeEvent)
    (fs : list Finding) (f : Finding) :
  In (Called (BatchImportFindings fs)) (fst (lambda_handler svc event [])) ->
  In f fs ->
  exists (item : Item) (r : Resource),
    In item (items event)
    /\ fs = [f]
    /\ Resources f = [r]
    /\ ResourceId r = instanceId item
    /\ (forall (before after : list Tag) (t : Tag),
           tagSet item = before ++ t :: after ->
           key t = "aws:autoscaling:groupName" ->
           (forall t', In t' before -> key t' <> "aws:autoscaling:groupName") ->
           value t <> EmptyString ->
           AutoScalingGroupName (Other (Details r)) = value t)
    /\ (forall (before after : list Tag) (t : Tag),
           tagSet item = before ++ t :: after ->
           key t = "aws:autoscaling:groupName" ->
           (forall t', In t' before -> key t' <> "aws:autoscaling:groupName") ->
           value t = EmptyString ->
           AutoScalingGroupName (Other (Details r)) = "Not part of an ASG")
    /\ ((forall t, In t (tagSet item) ->
                   key t <> "aws:autoscaling:groupName") ->
        AutoScalingGroupName (Other (Details r)) = "Not part of an ASG").
Proof.
  intros I F. destruct (handler_findings svc event fs I) as (item & J & ->).
  destruct F as [<-|[]]. exists item. eexists. split; [exact J|].
  split; [reflexivity|]. split; [reflexivity|]. split; [reflexivity|].
  cbn [make_finding Details Other AutoScalingGroupName details_of
       auto_scaling_group_name].
  split; [|split].
  - intros before after t S K N V.
    rewrite (find_asg_name_first (tagSet item) before after t S K N).
    cbn [asg_name_or_default]. destruct (value t); [now destruct V|reflexivity].
  - intros before after t S K N V.
    rewrite (find_asg_name_first (tagSet item) before after t S K N).
    now rewrite V.
  - intros N. apply find_asg_name_none in N. now rewrite N.
Qed.

Lemma C4_group_name_in_finding_witness :
  exists r : Resource,
    Resources (make_finding (details_of (Sample.event_of [Sample.twice_tagged])
                                        Sample.twice_tagged)) = [r]
    /\ ResourceId r = "i-4"
    /\ AutoScalingGroupName (Other (Details r)) = "first-asg".
Proof.
  destruct (C4_group_name_in_finding Sample.all_public
              (Sample.event_of [Sample.twice_tagged])
              [make_finding (details_of (Sample.event_of [Sample.twice_tagged])
                                        Sample.twice_tagged)]
              (make_finding (details_of (Sample.event_of [Sample.twice_tagged])
                                        Sample.twice_tagged)))
    as (item & r & I & _ & R & D & A & _ & _).
  - vm_compute. find_in_trace.
  - left. reflexivity.
  - destruct I as [<-|[]]. exists r. split; [exact R|]. split; [exact D|].
    apply (A [ {| key := "Name"; value := "web" |} ]
             [ {| key := "aws:autoscaling:groupName"; value := "second-asg" |} ]
             {| key := "aws:autoscaling:groupName"; value := "first-asg" |}).
    + reflexivity.
    + reflexivity.
    + intros t' [<-|[]]. discriminate.
    + discriminate.
Defined.

(** C8. Every finding submitted in an invocation is the finding of an item
    of the event and carries the fixed values of the schema: the schema
    version, the id made of the instance id and "/compliance-check", the
    generator id, the product ARN built from the event's region and account
    (with [securityhub] as the provider), the account, the type, the
    event's timestamp as creation and update time, severity HIGH, the
    title, the description naming the instance and the image, compliance
    FAILED, record state ACTIVE, and one resource describing the
    instance. *)
Theorem C8_finding_schema (svc : Services) (event : ChangeEvent)
    (fs : list Finding) (f : Finding) :
  In (Called (BatchImportFindings fs)) (fst (lambda_handler svc event [])) ->
  In f fs ->
  exists item : Item,
    In item (items event)
    /\ fs = [f]
    /\ SchemaVersion f = "2018-10-08"
    /\ Id f = (instanceId item ++ "/compliance-check")%string
    /\ ProductArn f =
       ("arn:aws:securityhub:" ++ region event ++ ":" ++ account event
        ++ ":product/" ++ account event ++ "/default")%string
    /\ GeneratorId f = "custom-compliance-check"
    /\ AwsAccountId f = account event
    /\ Types f =
       ["Software and Configuration Checks/Industry and Regulatory Standards"]
    /\ CreatedAt f = eventTime event
    /\ UpdatedAt f = eventTime event
    /\ Label (Severity f) = "HIGH"
    /\ Title f = "EC2 Instance Non-Compliance with Company Standards"
    /\ Description f =
       ("EC2 instance " ++ instanceId item ++ " with AMI " ++ imageId item
        ++ " is non-compliant and was terminated.")%string
    /\ map (fun r => (ResourceType r, ResourceId r, Partition r,
                      ResourceRegion r, ImageId (AwsEc2Instance (Details r))))
           (Resources f) =
       [("AwsEc2Instance", instanceId item, "aws", region event, imageId item)]
    /\ Status (Compliance f) = "FAILED"
    /\ RecordState f = "ACTIVE".
Proof.
  intros I F. destruct (handler_findings svc event fs I) as (item & J & ->).
  destruct F as [<-|[]]. exists item. split; [exact J|].
  repeat split.
Qed.

Lemma C8_finding_schema_witness :
  exists item : Item,
    In item [Sample.grouped]
    /\ [make_finding (details_of (Sample.event_of [Sample.grouped])
                                 Sample.grouped)] =
       [make_finding (details_of (Sample.event_of [Sample.grouped])
                                 Sample.grouped)]
    /\ "2018-10-08" = "2018-10-08"
    /\ "i-1/compliance-check" = (instanceId item ++ "/compliance-check")%string
    /\ "arn:aws:securityhub:eu-west-2:123456789012:product/123456789012/default" =
       ("arn:aws:securityhub:" ++ "eu-west-2" ++ ":" ++ "123456789012"
        ++ ":product/" ++ "123456789012" ++ "/default")%string
    /\ "custom-compliance-check" = "custom-compliance-check"
    /\ "123456789012" = "123456789012"
    /\ ["Software and Configuration Checks/Industry and Regulatory Standards"] =
       ["Software and Configuration Checks/Industry and Regulatory Standards"]
    /\ "2024-01-01T00:00:00Z" = "2024-01-01T00:00:00Z"
    /\ "2024-01-01T00:00:00Z" = "2024-01-01T00:00:00Z"
    /\ "HIGH" = "HIGH"
    /\ "EC2 Instance Non-Compliance with Company Standards" =
       "EC2 Instance Non-Compliance with Company Standards"
    /\ "EC2 instance i-1 with AMI ami-1 is non-compliant and was terminated." =
       ("EC2 instance " ++ instanceId item ++ " with AMI " ++ imageId item
        ++ " is non-compliant and was terminated.")%string
    /\ [("AwsEc2Instance", "i-1", "aws", "eu-west-2", "ami-1")] =
       [("AwsEc2Instance", instanceId item, "aws", "eu-west-2", imageId item)]
    /\ "FAILED" = "FAILED"
    /\ "ACTIVE" = "ACTIVE".
Proof.
  apply (C8_finding_schema Sample.all_public
           (Sample.event_of [Sample.grouped])
           [make_finding (details_of (Sample.event_of [Sample.grouped])
                                     Sample.grouped)]
           (make_finding (details_of (Sample.event_of [Sample.grouped])
                                     Sample.grouped))).
  - vm_compute. find_in_trace.
  - left. reflexivity.
Defined.

(** C5. For an item whose image is reported public, whatever the
    suspension and the termination requests answer: a refused request is
    answered by its error line and nothing more, the finding of the item is
    still submitted, the item ends the way the submission ends, and when
    the submission succeeds the invocation goes on with the items after
    it. *)
Theorem C5_remediation_failures_are_caught (svc : Services)
    (event : ChangeEvent) (pre post : list Item) (item : Item) (h : Trace) :
  items event = pre ++ item :: post ->
  for_each (body_of svc event) pre [] = (h, inr tt) ->
  reported_public svc h item = true ->
  (forall name e,
      find_asg_name (tagSet item) = Some name -> truthy name = true ->
      suspension_outcome svc item name h = inl e ->
      In (Printed ("Error suspending ASG " ++ name ++ ": " ++ str e))
         (events_of (body_of svc event item) h))
  /\ (forall e,
         termination_outcome svc item h = inl e ->
         In (Printed ("Error terminating instance " ++ instanceId item
                      ++ ": " ++ str e))
            (events_of (body_of svc event item) h))
  /\ In (Called (BatchImportFindings [make_finding (details_of event item)]))
        (events_of (body_of svc event item) h)
  /\ snd (body_of svc event item h) =
     match submission_outcome svc event item h with
     | inr _ => inr tt
     | inl e => inl e
     end
  /\ (forall response,
         submission_outcome svc event item h = inr response ->
         lambda_handler svc event [] =
         (for_each (body_of svc event) post ;; ret evaluation_complete)
           (before_submission svc item h
            ++ [ Called (BatchImportFindings
                           [make_finding (details_of event item)]);
                 Printed response ])).
Proof.
  intros I P R.
  pose proof (item_events_public_exact svc event item h R) as X.
  assert (B : body_of svc event item h =
              match submission_outcome svc event item h with
              | inr response =>
                  (before_submission svc item h
                   ++ [ Called (BatchImportFindings
                                  [make_finding (details_of event item)]);
                        Printed response ], inr tt)
              | inl e =>
                  (before_submission svc item h
                   ++ [ Called (BatchImportFindings
                                  [make_finding (details_of event item)]) ],
                   inl e)
              end).
  { unfold reported_public in R.
    destruct (describe_images svc h [imageId item]) as [e|[|img imgs]] eqn:E;
      try discriminate.
    exact (process_item_public svc event item h img imgs E R). }
  repeat split.
  - intros name e F T S. rewrite X, F, T, S. right. cbn [app].
    right. left. reflexivity.
  - intros e T. rewrite X, T. right. apply in_or_app. right.
    right. left. reflexivity.
  - rewrite X. right. apply in_or_app. right. right. right. left.
    reflexivity.
  - rewrite B. now destruct (submission_outcome svc event item h).
  - intros response S. rewrite (lambda_handler_split svc event pre post item h I P).
    rewrite B, S. reflexivity.
Qed.

Lemma C5_remediation_failures_are_caught_witness :
  In (Printed "Error suspending ASG my-asg: AccessDenied")
     (events_of (body_of Sample.remediation_denied
                   (Sample.event_of [Sample.grouped; Sample.standalone])
                   Sample.grouped) [])
  /\ In (Printed "Error terminating instance i-1: AccessDenied")
        (events_of (body_of Sample.remediation_denied
                      (Sample.event_of [Sample.grouped; Sample.standalone])
                      Sample.grouped) [])
  /\ lambda_handler Sample.remediation_denied
       (Sample.event_of [Sample.grouped; Sample.standalone]) [] =
     (for_each (body_of Sample.remediation_denied
                  (Sample.event_of [Sample.grouped; Sample.standalone]))
               [Sample.standalone] ;; ret evaluation_complete)
       (before_submission Sample.remediation_denied Sample.grouped []
        ++ [ Called (BatchImportFindings
                       [make_finding
                          (details_of
                             (Sample.event_of [Sample.grouped; Sample.standalone])
                             Sample.grouped)]);
             Printed "ok" ]).
Proof.
  destruct (C5_remediation_failures_are_caught Sample.remediation_denied
              (Sample.event_of [Sample.grouped; Sample.standalone])
              [] [Sample.standalone] Sample.grouped []
              eq_refl eq_refl eq_refl) as (S & T & _ & _ & L).
  split; [|split].
  - exact (S "my-asg" Sample.denied eq_refl eq_refl eq_refl).
  - exact (T Sample.denied eq_refl).
  - exact (L "ok" eq_refl).
Defined.

(** C6. A failure of the image lookup, and a failure of the finding
    submission, leave [lambda_handler] as that same exception; the trace
    of the invocation ends with the refused request, so the rest of the
    item and the items after it are not processed. *)
Theorem C6_fatal_failures_propagate (svc : Services) (event : ChangeEvent)
    (pre post : list Item) (item : Item) (h : Trace) (e : Exception) :
  items event = pre ++ item :: post ->
  for_each (body_of svc event) pre [] = (h, inr tt) ->
  (describe_images svc h [imageId item] = inl e ->
   lambda_handler svc event [] =
   (h ++ [Called (DescribeImages [imageId item])], inl e))
  /\ (reported_public svc h item = true ->
      submission_outcome svc event item h = inl e ->
      lambda_handler svc event [] =
      (before_submission svc item h
       ++ [Called (BatchImportFindings [make_finding (details_of event item)])],
       inl e)).
Proof.
  intros I P. split.
  - intros D. rewrite (lambda_handler_split svc event pre post item h I P).
    now rewrite (process_item_lookup_raises svc event item h e D).
  - intros R S. rewrite (lambda_handler_split svc event pre post item h I P).
    unfold reported_public in R.
    destruct (describe_images svc h [imageId item]) as [e0|[|img imgs]] eqn:E;
      try discriminate.
    rewrite (process_item_public svc event item h img imgs E R).
    now rewrite S.
Qed.

Lemma C6_fatal_failures_propagate_witness :
  lambda_handler Sample.lookup_denied
    (Sample.event_of [Sample.grouped; Sample.standalone]) [] =
    ([Called (DescribeImages ["ami-1"])], inl Sample.denied)
  /\ lambda_handler Sample.import_denied
       (Sample.event_of [Sample.grouped; Sample.standalone]) [] =
     ([ Called (DescribeImages ["ami-1"]);
        Called (SuspendProcesses "my-asg");
        Printed "Suspended ASG: my-asg";
        Called (TerminateInstances ["i-1"]);
        Printed "Terminating instance: i-1";
        Called (BatchImportFindings
                  [make_finding
                     (details_of
                        (Sample.event_of [Sample.grouped; Sample.standalone])
                        Sample.grouped)]) ],
      inl Sample.denied).
Proof.
  split.
  - exact (proj1 (C6_fatal_failures_propagate Sample.lookup_denied
                    (Sample.event_of [Sample.grouped; Sample.standalone])
                    [] [Sample.standalone] Sample.grouped [] Sample.denied
                    eq_refl eq_refl) eq_refl).
  - exact (proj2 (C6_fatal_failures_propagate Sample.import_denied
                    (Sample.event_of [Sample.grouped; Sample.standalone])
                    [] [Sample.standalone] Sample.grouped [] Sample.denied
                    eq_refl eq_refl) eq_refl eq_refl).
Defined.

(** C7, as stated, fails: with a refused image lookup the invocation ends
    in the lookup's exception and returns no response. *)
Lemma C7_response_counterexample :
  lambda_handler Sample.lookup_denied (Sample.event_of [Sample.grouped]) [] =
    ([Called (DescribeImages ["ami-1"])], inl Sample.denied)
  /\ snd (lambda_handler Sample.lookup_denied
            (Sample.event_of [Sample.grouped]) []) <>
     inr evaluation_complete.
Proof. split; [reflexivity|discriminate]. Qed.

(** C7, amended.  [lambda_handler] returns the response with status 200 and
    body ["Evaluation complete."] (in double quotes) and no other: it
    returns it whenever every image lookup answers at least one image and
    every finding submission succeeds, whatever the suspension and
    termination requests answer; and when it does not return, its trace
    ends with an image lookup or a finding submission, the two requests
    whose failure is not caught. *)
Theorem C7_response_unless_fatal_failure (svc : Services) (event : ChangeEvent) :
  (forall r, snd (lambda_handler svc event []) = inr r ->
             r = evaluation_complete)
  /\ ((forall h ids,
          exists img imgs, describe_images svc h ids = inr (img :: imgs)) ->
      (forall h fs,
          exists response, batch_import_findings svc h fs = inr response) ->
      snd (lambda_handler svc event []) = inr evaluation_complete)
  /\ (forall e, snd (lambda_handler svc event []) = inl e ->
                exists (h0 : Trace) (c : Call),
                  fst (lambda_handler svc event []) = h0 ++ [Called c]
                  /\ fatal_request c = true).
Proof.
  split; [|split].
  - intros r. rewrite lambda_handler_outcome.
    destruct (snd (for_each (body_of svc event) (items event) [])); congruence.
  - intros D S. rewrite lambda_handler_outcome.
    now rewrite (loop_completes svc event (items event) [] D S).
  - intros e. rewrite lambda_handler_outcome, lambda_handler_trace.
    destruct (for_each (body_of svc event) (items event) []) as [h1 [e1|[]]] eqn:L;
      simpl; [|discriminate].
    intros _. exact (loop_raises svc event (items event) [] h1 e1 L).
Qed.

Lemma C7_response_unless_fatal_failure_witness :
  snd (lambda_handler Sample.remediation_denied
         (Sample.event_of [Sample.grouped; Sample.standalone]) []) =
  inr {| statusCode := 200;
         body := String dquote ("Evaluation complete."
                                 ++ String dquote EmptyString) |}.
Proof.
  apply (proj1 (proj2 (C7_response_unless_fatal_failure
                         Sample.remediation_denied
                         (Sample.event_of [Sample.grouped; Sample.standalone])))).
  - intros h ids. exists {| Public := true |}, []. reflexivity.
  - intros h fs. exists "ok". reflexivity.
Defined.

(** C9. Of the list answered by the image lookup the handler reads the
    first element only: two sets of clients whose lookup answers differ at
    most after the first image give the same invocation.  And when the
    lookup made for an item succeeds with an empty list, the invocation
    ends in an [IndexError] right after that lookup, before any
    suspension, termination or submission for the item. *)
Theorem C9_first_image_only (svc : Services) (event : ChangeEvent) :
  (forall svc' : Services,
      agree_up_to_first_image svc svc' ->
      forall h, lambda_handler svc event h = lambda_handler svc' event h)
  /\ (forall (pre post : list Item) (item : Item) (h : Trace),
         items event = pre ++ item :: post ->
         for_each (body_of svc event) pre [] = (h, inr tt) ->
         describe_images svc h [imageId item] = inr [] ->
         lambda_handler svc event [] =
         (h ++ [Called (DescribeImages [imageId item])],
          inl (IndexError "list index out of range"))).
Proof.
  split.
  - intros svc' A h. rewrite !lambda_handler_loop. unfold bind.
    replace (for_each (body_of svc' event) (items event) h)
      with (for_each (body_of svc event) (items event) h); [reflexivity|].
    generalize (items event) as l. intros l. revert h.
    induction l as [|item rest IH]; intros h; simpl; [reflexivity|].
    unfold bind. rewrite (body_agree svc svc' event item h A).
    destruct (body_of svc' event item h) as [h1 [e|[]]]; [reflexivity|apply IH].
  - intros pre post item h I P D.
    rewrite (lambda_handler_split svc event pre post item h I P).
    now rewrite (process_item_no_image svc event item h D).
Qed.

Lemma C9_first_image_only_witness :
  lambda_handler Sample.all_public (Sample.event_of [Sample.grouped]) [] =
    lambda_handler Sample.two_images (Sample.event_of [Sample.grouped]) []
  /\ lambda_handler Sample.no_images
       (Sample.event_of [Sample.grouped; Sample.standalone]) [] =
     ([Called (DescribeImages ["ami-1"])],
      inl (IndexError "list index out of range")).
Proof.
  split.
  - apply (proj1 (C9_first_image_only Sample.all_public
                    (Sample.event_of [Sample.grouped]))).
    repeat split.
  - exact (proj2 (C9_first_image_only Sample.no_images
                    (Sample.event_of [Sample.grouped; Sample.standalone]))
             [] [Sample.standalone] Sample.grouped [] eq_refl eq_refl eq_refl).
Defined.

(** ** Further properties of the tag scan and of the finding *)

Lemma length_string_append (s1 s2 : string) :
  String.length (s1 ++ s2) = String.length s1 + String.length s2.
Proof. induction s1 as [|c r IH]; simpl; [reflexivity|now rewrite IH]. Qed.

Lemma append_cancel_r (s1 s2 suffix : string) :
  (s1 ++ suffix = s2 ++ suffix)%string -> s1 = s2.
Proof.
  intros E.
  assert (L : String.length s1 = String.length s2).
  { apply (f_equal String.length) in E.
    rewrite !length_string_append in E. lia. }
  revert s2 E L. induction s1 as [|c1 r1 IH]; intros [|c2 r2] E L;
    try discriminate; [reflexivity|].
  simpl in E. injection E as -> E. f_equal. apply IH; [exact E|].
  simpl in L. lia.
Qed.

(** X1. The tag scan of lines 72-76 finds [v] exactly when the tag list
    splits into tags without the group key, then a tag with the group key
    and value [v], then any tags at all: the first tag with the key
    decides and later tags with the key are not read. *)
Theorem X1_tag_scan_first_match (tags : list Tag) (v : string) :
  find_asg_name tags = Some v <->
  exists (before after : list Tag) (t : Tag),
    tags = before ++ t :: after
    /\ key t = "aws:autoscaling:groupName"
    /\ value t = v
    /\ forall t', In t' before -> key t' <> "aws:autoscaling:groupName".
Proof.
  split.
  - induction tags as [|t0 rest IH]; simpl; [discriminate|].
    destruct (String.eqb (key t0) "aws:autoscaling:groupName") eqn:E.
    + intros [= <-]. apply String.eqb_eq in E.
      exists [], rest, t0. repeat split; [exact E|]. intros t' [].
    + intros F. destruct (IH F) as (before & after & t & -> & K & V & N).
      exists (t0 :: before), after, t. repeat split; try assumption.
      intros t' [<-|I]; [now apply String.eqb_neq|now apply N].
  - intros (before & after & t & -> & K & V & N).
    induction before as [|t0 rest IH]; simpl.
    + rewrite K, String.eqb_refl. now rewrite V.
    + destruct (String.eqb (key t0) "aws:autoscaling:groupName") eqn:E.
      * apply String.eqb_eq in E. now destruct (N t0 (or_introl eq_refl)).
      * apply IH. intros t' I. apply N. now right.
Qed.

(** X2. The tag scan finds nothing exactly when no tag of the list has the
    key [aws:autoscaling:groupName], compared character by character; an
    empty tag list is one such case. *)
Theorem X2_tag_scan_none (tags : list Tag) :
  find_asg_name tags = None <->
  forall t, In t tags -> key t <> "aws:autoscaling:groupName".
Proof.
  induction tags as [|t0 rest IH]; simpl.
  - split; [intros _ t []|reflexivity].
  - destruct (String.eqb (key t0) "aws:autoscaling:groupName") eqn:E.
    + split; [discriminate|]. intros H. apply String.eqb_eq in E.
      now destruct (H t0 (or_introl eq_refl)).
    + apply String.eqb_neq in E. rewrite IH. split.
      * intros H t [<-|I]; [exact E|now apply H].
      * intros H t I. apply H. now right.
Qed.

(** X3. Whatever the recorded group name is, the finding has exactly one
    resource and its [AutoScalingGroupName] is not the empty string: it is
    the recorded name when that is a non-empty string, and the literal
    "Not part of an ASG" when nothing was recorded or the recorded name is
    empty. *)
Theorem X3_group_name_never_empty (d : EventDetails) :
  (forall s : string,
      auto_scaling_group_name d = Some s -> s <> EmptyString ->
      group_names (make_finding d) = [s])
  /\ (auto_scaling_group_name d = None
      \/ auto_scaling_group_name d = Some EmptyString ->
      group_names (make_finding d) = ["Not part of an ASG"])
  /\ (exists name : string,
         group_names (make_finding d) = [name] /\ name <> EmptyString).
Proof.
  unfold group_names. cbn [make_finding Resources map Details Other
                           AutoScalingGroupName].
  destruct (auto_scaling_group_name d) as [[|c r]|];
    cbn [asg_name_or_default truthy].
  - split; [|split].
    + intros s [= <-] N. now destruct N.
    + reflexivity.
    + exists "Not part of an ASG". split; [reflexivity|discriminate].
  - split; [|split].
    + now intros s [= <-] _.
    + intros [H|H]; discriminate H.
    + exists (String c r). split; [reflexivity|discriminate].
  - split; [|split].
    + discriminate.
    + reflexivity.
    + exists "Not part of an ASG". split; [reflexivity|discriminate].
Qed.

Lemma X3_group_name_never_empty_witness :
  group_names (make_finding (details_of (Sample.event_of [Sample.grouped])
                                        Sample.grouped)) = ["my-asg"]
  /\ group_names (make_finding (details_of (Sample.event_of [Sample.blank_group])
                                           Sample.blank_group)) =
     ["Not part of an ASG"]
  /\ group_names (make_finding (details_of (Sample.event_of [Sample.standalone])
                                           Sample.standalone)) =
     ["Not part of an ASG"].
Proof.
  split; [|split].
  - apply (proj1 (X3_group_name_never_empty
                    (details_of (Sample.event_of [Sample.grouped])
                                Sample.grouped)) "my-asg").
    + reflexivity.
    + discriminate.
  - apply (proj1 (proj2 (X3_group_name_never_empty
                           (details_of (Sample.event_of [Sample.blank_group])
                                       Sample.blank_group)))).
    right. reflexivity.
  - apply (proj1 (proj2 (X3_group_name_never_empty
                           (details_of (Sample.event_of [Sample.standalone])
                                       Sample.standalone)))).
    left. reflexivity.
Defined.

(** X4. The [Id] of a finding is the instance id followed by
    [/compliance-check], so two findings have the same [Id] exactly when
    they are about the same instance id: items that repeat an instance id
    share a finding id, and different instance ids never collide. *)
Theorem X4_finding_id_identifies_instance (d1 d2 : EventDetails) :
  Id (make_finding d1) = Id (make_finding d2) <->
  instance_id d1 = instance_id d2.
Proof.
  cbn [make_finding Id]. split.
  - apply append_cancel_r.
  - now intros ->.
Qed.

(** ** The invocation as a whole *)

Lemma in_calls (c : Call) (tr : Trace) : In c (calls tr) <-> In (Called c) tr.
Proof.
  induction tr as [|[c0|line] t IH]; simpl.
  - reflexivity.
  - rewrite IH. split; intros [E|I]; auto; left; congruence.
  - rewrite IH. split; [auto|]. intros [E|I]; [discriminate|exact I].
Qed.

(** The requests of an item are those of [item_requests] at the verdict of
    its lookup. *)
Lemma item_calls (svc : Services) (event : ChangeEvent) (item : Item)
    (h : Trace) :
  calls (events_of (body_of svc event item) h) =
  item_requests event item (reported_public svc h item).
Proof.
  destruct (reported_public svc h item) eqn:R.
  - exact (item_calls_public svc event item h R).
  - now rewrite (item_events_not_public svc event item h R).
Qed.

(** The requests of the loop: one block per item, for the items of a
    prefix of the list, all of them when the loop ends normally. *)
Lemma loop_calls_shape (svc : Services) (event : ChangeEvent) (l : list Item)
    (h : Trace) :
  exists verdicts : list bool,
    length verdicts <= length l
    /\ calls (fst (for_each (body_of svc event) l h)) =
       calls h
       ++ flat_map (fun p => item_requests event (fst p) (snd p))
                   (combine l verdicts)
    /\ (forall u, snd (for_each (body_of svc event) l h) = inr u ->
                  length verdicts = length l).
Proof.
  revert h. induction l as [|item rest IH]; intros h.
  - exists []. simpl. rewrite app_nil_r. auto.
  - pose proof (body_extends svc event item h) as X.
    pose proof (item_calls svc event item h) as C.
    cbn [for_each]. unfold bind.
    destruct (body_of svc event item h) as [h1 [e|[]]]; cbn [fst snd] in *.
    + exists [reported_public svc h item]. split; [simpl; lia|].
      split; [|discriminate].
      rewrite X, calls_app, C. cbn [combine flat_map fst snd].
      destruct rest; cbn [combine flat_map]; now rewrite app_nil_r.
    + destruct (IH h1) as (vs & L & S & N).
      exists (reported_public svc h item :: vs). split; [simpl; lia|].
      split.
      * rewrite S, X, calls_app, C. cbn [combine flat_map fst snd].
        now rewrite app_assoc.
      * intros u U. simpl. f_equal. exact (N u U).
Qed.

(** X5. When every image lookup answers with a first image that is not
    public, the invocation consists of one lookup per item, in the order of
    the items, and nothing else (no other request, no printed line), and it
    returns the response; with no item at all it does nothing and returns
    the response. *)
Theorem X5_all_private_run (svc : Services) (event : ChangeEvent) :
  (forall h ids,
      exists img imgs,
        describe_images svc h ids = inr (img :: imgs) /\ Public img = false) ->
  lambda_handler svc event [] =
  (map (fun item => Called (DescribeImages [imageId item])) (items event),
   inr evaluation_complete).
Proof.
  intros P. rewrite lambda_handler_loop. unfold bind.
  assert (L : forall l h,
             for_each (body_of svc event) l h =
             (h ++ map (fun item => Called (DescribeImages [imageId item])) l,
              inr tt)).
  { induction l as [|item rest IH]; intros h; cbn [for_each map].
    - unfold ret. now rewrite app_nil_r.
    - destruct (P h [imageId item]) as (img & imgs & E & N).
      unfold bind.
      rewrite (process_item_private svc event item h img imgs E N).
      rewrite IH, <- app_assoc. reflexivity. }
  now rewrite L.
Qed.

Lemma X5_all_private_run_witness :
  lambda_handler Sample.all_private
    (Sample.event_of [Sample.grouped; Sample.standalone]) [] =
  ([ Called (DescribeImages ["ami-1"]); Called (DescribeImages ["ami-2"]) ],
   inr evaluation_complete).
Proof.
  apply (X5_all_private_run Sample.all_private
           (Sample.event_of [Sample.grouped; Sample.standalone])).
  intros h ids. exists {| Public := false |}, []. split; reflexivity.
Defined.

(** X6. When every image lookup answers with a public first image and every
    finding submission is accepted, the invocation returns the response
    and its requests are, item after item in the order of the event: the
    lookup, the suspension when the item has a non-empty group name, the
    termination, the submission -- whatever the suspension and termination
    requests answer. *)
Theorem X6_all_public_run (svc : Services) (event : ChangeEvent) :
  (forall h ids,
      exists img imgs,
        describe_images svc h ids = inr (img :: imgs) /\ Public img = true) ->
  (forall h fs, exists response, batch_import_findings svc h fs = inr response) ->
  snd (lambda_handler svc event []) = inr evaluation_complete
  /\ calls (fst (lambda_handler svc event [])) =
     flat_map (fun item => item_requests event item true) (items event).
Proof.
  intros P S. rewrite lambda_handler_outcome, lambda_handler_trace.
  assert (L : forall l h,
             snd (for_each (body_of svc event) l h) = inr tt
             /\ calls (fst (for_each (body_of svc event) l h)) =
                calls h
                ++ flat_map (fun item => item_requests event item true) l).
  { induction l as [|item rest IH]; intros h; cbn [for_each flat_map].
    - unfold ret. simpl. now rewrite app_nil_r.
    - destruct (P h [imageId item]) as (img & imgs & E & N).
      assert (R : reported_public svc h item = true)
        by (unfold reported_public; now rewrite E).
      pose proof (body_extends svc event item h) as X.
      pose proof (item_calls svc event item h) as C. rewrite R in C.
      unfold bind.
      rewrite (process_item_public svc event item h img imgs E N) in *.
      unfold submission_outcome in *.
      destruct (S (before_submission svc item h)
                  [make_finding (details_of event item)]) as (r & Sr).
      rewrite Sr in *. cbn [fst] in X.
      destruct (IH (before_submission svc item h
                    ++ [Called (BatchImportFindings
                                  [make_finding (details_of event item)]);
                        Printed r])) as (I1 & I2).
      split; [exact I1|]. rewrite I2, X, calls_app, C.
      now rewrite app_assoc. }
  destruct (L (items event) []) as (L1 & L2).
  rewrite L1, L2. split; reflexivity.
Qed.

Lemma X6_all_public_run_witness :
  snd (lambda_handler Sample.remediation_denied
         (Sample.event_of [Sample.grouped; Sample.standalone]) []) =
    inr evaluation_complete
  /\ calls (fst (lambda_handler Sample.remediation_denied
                   (Sample.event_of [Sample.grouped; Sample.standalone]) [])) =
     flat_map (fun item =>
                 item_requests
                   (Sample.event_of [Sample.grouped; Sample.standalone])
                   item true)
              [Sample.grouped; Sample.standalone].
Proof.
  apply (X6_all_public_run Sample.remediation_denied
           (Sample.event_of [Sample.grouped; Sample.standalone])).
  - intros h ids. exists {| Public := true |}, []. split; reflexivity.
  - intros h fs. exists "ok". reflexivity.
Defined.

(** X7. The items are processed one after the other in the order of the
    event: the requests of an invocation are the blocks of requests of the
    items of a prefix of the list, each block being the lookup alone or the
    lookup followed by the remediation; when the invocation returns, every
    item has its block. *)
Theorem X7_sequential_blocks (svc : Services) (event : ChangeEvent) :
  exists verdicts : list bool,
    length verdicts <= length (items event)
    /\ calls (fst (lambda_handler svc event [])) =
       flat_map (fun p => item_requests event (fst p) (snd p))
                (combine (items event) verdicts)
    /\ (forall r, snd (lambda_handler svc event []) = inr r ->
                  length verdicts = length (items event)).
Proof.
  destruct (loop_calls_shape svc event (items event) []) as (vs & L & C & N).
  exists vs. split; [exact L|]. split.
  - rewrite lambda_handler_trace. exact C.
  - intros r. rewrite lambda_handler_outcome.
    destruct (snd (for_each (body_of svc event) (items event) [])) as [e|[]] eqn:U;
      [discriminate|].
    intros _. exact (N tt eq_refl).
Qed.

Lemma X7_sequential_blocks_witness :
  exists verdicts : list bool,
    length verdicts = 2
    /\ calls (fst (lambda_handler Sample.all_public
                     (Sample.event_of [Sample.grouped; Sample.standalone]) [])) =
       flat_map (fun p =>
                   item_requests
                     (Sample.event_of [Sample.grouped; Sample.standalone])
                     (fst p) (snd p))
                (combine [Sample.grouped; Sample.standalone] verdicts).
Proof.
  destruct (X7_sequential_blocks Sample.all_public
              (Sample.event_of [Sample.grouped; Sample.standalone]))
    as (vs & _ & C & N).
  exists vs. split; [exact (N evaluation_complete eq_refl)|exact C].
Defined.

(** The blocks of [item_requests] have between one and four requests. *)
Lemma item_requests_length (event : ChangeEvent) (item : Item) (b : bool) :
  1 <= length (item_requests event item b) <= 4.
Proof.
  unfold item_requests. destruct b; [|simpl; lia].
  destruct (find_asg_name (tagSet item)) as [name|]; [|simpl; lia].
  destruct (truthy name); simpl; lia.
Qed.

Lemma blocks_length (event : ChangeEvent) (pairs : list (Item * bool)) :
  length pairs
  <= length (flat_map (fun p => item_requests event (fst p) (snd p)) pairs)
  <= 4 * length pairs.
Proof.
  induction pairs as [|p rest IH]; cbn [flat_map]; [simpl; lia|].
  rewrite length_app. cbn [length].
  pose proof (item_requests_length event (fst p) (snd p)). lia.
Qed.

(** X8. An invocation only sends requests that name what the event names:
    every request in its trace is, for some item of the event, the lookup
    of that item's image, the suspension of the non-empty group name found
    in that item's tags, the termination of that item's instance alone, or
    the submission of that item's finding alone. *)
Theorem X8_requests_name_event_resources (svc : Services)
    (event : ChangeEvent) (c : Call) :
  In (Called c) (fst (lambda_handler svc event [])) ->
  exists item : Item,
    In item (items event)
    /\ (c = DescribeImages [imageId item]
        \/ (exists name : string,
               find_asg_name (tagSet item) = Some name
               /\ name <> EmptyString
               /\ c = SuspendProcesses name)
        \/ c = TerminateInstances [instanceId item]
        \/ c = BatchImportFindings [make_finding (details_of event item)]).
Proof.
  intros I. apply in_calls in I. rewrite lambda_handler_trace in I.
  destruct (loop_calls_shape svc event (items event) []) as (vs & _ & C & _).
  rewrite C in I. cbn [calls app] in I. apply in_flat_map in I.
  destruct I as ([item b] & P & I). cbn [fst snd] in I.
  exists item. split; [exact (in_combine_l _ _ _ _ P)|].
  unfold item_requests in I. destruct I as [<-|I]; [now left|].
  destruct b; [|contradiction]. apply in_app_or in I. destruct I as [I|I].
  - destruct (find_asg_name (tagSet item)) as [name|]; [|contradiction].
    destruct (truthy name) eqn:T; [|contradiction].
    destruct I as [<-|[]]. right. left. exists name.
    repeat split. intros ->. discriminate T.
  - destruct I as [<-|[<-|[]]]; auto.
Qed.

Lemma X8_requests_name_event_resources_witness :
  exists item : Item,
    In item [Sample.grouped; Sample.standalone]
    /\ (SuspendProcesses "my-asg" = DescribeImages [imageId item]
        \/ (exists name : string,
               find_asg_name (tagSet item) = Some name
               /\ name <> EmptyString
               /\ SuspendProcesses "my-asg" = SuspendProcesses name)
        \/ SuspendProcesses "my-asg" = TerminateInstances [instanceId item]
        \/ SuspendProcesses "my-asg" =
           BatchImportFindings
             [make_finding
                (details_of (Sample.event_of [Sample.grouped; Sample.standalone])
                            item)]).
Proof.
  apply (X8_requests_name_event_resources Sample.all_public
           (Sample.event_of [Sample.grouped; Sample.standalone])).
  vm_compute. find_in_trace.
Defined.

(** X9. An invocation sends at most four requests per item of the event,
    and when it returns it has sent at least one request (the lookup) for
    each item. *)
Theorem X9_request_bounds (svc : Services) (event : ChangeEvent) :
  length (calls (fst (lambda_handler svc event []))) <= 4 * length (items event)
  /\ (forall r, snd (lambda_handler svc event []) = inr r ->
                length (items event)
                <= length (calls (fst (lambda_handler svc event [])))).
Proof.
  rewrite lambda_handler_trace.
  destruct (loop_calls_shape svc event (items event) []) as (vs & L & C & N).
  rewrite C. cbn [calls app].
  pose proof (blocks_length event (combine (items event) vs)) as B.
  rewrite length_combine in B. split; [lia|].
  intros r. rewrite lambda_handler_outcome.
  destruct (snd (for_each (body_of svc event) (items event) [])) as [e|[]] eqn:U;
    [discriminate|].
  intros _. rewrite (N tt eq_refl) in B. lia.
Qed.

Lemma X9_request_bounds_witness :
  2 <= length (calls (fst (lambda_handler Sample.all_public
                             (Sample.event_of [Sample.grouped; Sample.standalone])
                             []))).
Proof.
  exact (proj2 (X9_request_bounds Sample.all_public
                  (Sample.event_of [Sample.grouped; Sample.standalone]))
           evaluation_complete eq_refl).
Defined.

(** X10. Handling one event whose items are [l1] followed by [l2] is the
    same as handling the event with the items [l1] and then, if that
    returned, the event with the items [l2] from the trace reached; if the
    first raised, so does the whole, at the same point. *)
Theorem X10_event_concatenation (svc : Services) (event : ChangeEvent)
    (l1 l2 : list Item) (h : Trace) :
  lambda_handler svc (with_items event (l1 ++ l2)) h =
  match lambda_handler svc (with_items event l1) h with
  | (h1, inr _) => lambda_handler svc (with_items event l2) h1
  | (h1, inl e) => (h1, inl e)
  end.
Proof.
  rewrite !lambda_handler_loop. cbn [with_items items].
  change (body_of svc (with_items event (l1 ++ l2))) with (body_of svc event).
  change (body_of svc (with_items event l1)) with (body_of svc event).
  change (body_of svc (with_items event l2)) with (body_of svc event).
  unfold bind. rewrite for_each_app.
  destruct (for_each (body_of svc event) l1 h) as [h1 [e|[]]]; reflexivity.
Qed.

(** X11. For an item whose image is reported public, every guarded request
    is directly followed by the one line that reports its outcome (the
    success text when the request was accepted, the error text with the
    exception's message when it was refused), and the item's events end
    with the printed answer of the findings service when the submission
    was accepted and with the submission request itself when it was
    refused. *)
Theorem X11_outcome_lines (svc : Services) (event : ChangeEvent)
    (item : Item) (h : Trace) :
  reported_public svc h item = true ->
  (forall name : string,
      find_asg_name (tagSet item) = Some name -> truthy name = true ->
      exists before after : Trace,
        events_of (body_of svc event item) h =
        before
        ++ [ Called (SuspendProcesses name);
             Printed (match suspension_outcome svc item name h with
                      | inr _ => "Suspended ASG: " ++ name
                      | inl e => "Error suspending ASG " ++ name ++ ": " ++ str e
                      end) ]
        ++ after)
  /\ (exists before after : Trace,
         events_of (body_of svc event item) h =
         before
         ++ [ Called (TerminateInstances [instanceId item]);
              Printed (match termination_outcome svc item h with
                       | inr _ => "Terminating instance: " ++ instanceId item
                       | inl e => "Error terminating instance "
                                  ++ instanceId item ++ ": " ++ str e
                       end) ]
         ++ after)
  /\ last (events_of (body_of svc event item) h) (Printed EmptyString) =
     match submission_outcome svc event item h with
     | inr response => Printed response
     | inl _ =>
         Called (BatchImportFindings [make_finding (details_of event item)])
     end.
Proof.
  intros R. rewrite (item_events_public_exact svc event item h R).
  split; [|split].
  - intros name -> ->. exists [Called (DescribeImages [imageId item])].
    eexists. reflexivity.
  - exists (Called (DescribeImages [imageId item])
              :: match find_asg_name (tagSet item) with
                 | Some name =>
                     if truthy name
                     then [ Called (SuspendProcesses name);
                            Printed (suspend_line name
                                       (suspension_outcome svc item name h)) ]
                     else []
                 | None => []
                 end).
    exists (Called (BatchImportFindings [make_finding (details_of event item)])
              :: match submission_outcome svc event item h with
                 | inr response => [Printed response]
                 | inl _ => []
                 end).
    reflexivity.
  - rewrite app_comm_cons, app_assoc.
    destruct (submission_outcome svc event item h) as [e|r].
    + rewrite app_nil_r.
      change [ Called (TerminateInstances [instanceId item]);
               Printed (terminate_line (instanceId item)
                          (termination_outcome svc item h));
               Called (BatchImportFindings
                         [make_finding (details_of event item)]) ]
        with ([ Called (TerminateInstances [instanceId item]);
                Printed (terminate_line (instanceId item)
                           (termination_outcome svc item h)) ]
              ++ [ Called (BatchImportFindings
                             [make_finding (details_of event item)]) ]).
      rewrite app_assoc. apply last_last.
    + apply last_last.
Qed.

Lemma X11_outcome_lines_witness :
  (exists before after : Trace,
      events_of (body_of Sample.remediation_denied
                   (Sample.event_of [Sample.grouped]) Sample.grouped) [] =
      before
      ++ [ Called (SuspendProcesses "my-asg");
           Printed "Error suspending ASG my-asg: AccessDenied" ]
      ++ after)
  /\ last (events_of (body_of Sample.remediation_denied
                        (Sample.event_of [Sample.grouped]) Sample.grouped) [])
          (Printed EmptyString) =
     Printed "ok".
Proof.
  destruct (X11_outcome_lines Sample.remediation_denied
              (Sample.event_of [Sample.grouped]) Sample.grouped [] eq_refl)
    as (S & _ & L).
  split; [exact (S "my-asg" eq_refl eq_refl)|exact L].
Defined.
